(** * Mergington High School activities API (src/app.py)

    A shallow embedding of the FastAPI handlers of [src/app.py] and of the
    part of the MongoDB collection interface they call ([count_documents],
    [insert_one], [find], [find_one], [update_one] with [$push] / [$pull]),
    followed by the properties of the handlers. *)

From stdpp Require Import base option list strings gmap.
From Stdlib Require Import ZArith Lia.

Local Open Scope string_scope.
Local Open Scope Z_scope.
Local Open Scope list_scope.

(** ** Data model *)

(** The values of [initial_activities]: a Python dict with the five keys
    ["name"], ["description"], ["schedule"], ["max_participants"] and
    ["participants"]. *)
Record Activity := mkActivity {
  name : string;
  description : string;
  schedule : string;
  max_participants : Z;
  participants : list string
}.

(** MongoDB's [ObjectId]; only its identity matters. *)
Definition ObjectId := nat.

(** A stored document: the inserted dict together with the ["_id"] key the
    driver adds on [insert_one]. *)
Record Document := mkDocument {
  _id : ObjectId;
  fields : Activity
}.

(** [db.activities]: documents in insertion (natural) order.  The collection
    has no unique index, so nothing here forbids two documents of one name. *)
Abbreviation Collection := (list Document).

Definition set_participants (ps : list string) (d : Document) : Document :=
  mkDocument (_id d)
    (mkActivity (name (fields d)) (description (fields d))
       (schedule (fields d)) (max_participants (fields d)) ps).

(** ** The collection interface *)

(** The filter [{"name": n}]. *)
Definition matches (n : string) (d : Document) : bool :=
  bool_decide (name (fields d) = n).

(** [count_documents({})]. *)
Definition count_documents (c : Collection) : Z := Z.of_nat (length c).

Definition fresh_id (c : Collection) : ObjectId :=
  S (foldr Nat.max O (map _id c)).

(** [insert_one(activity)]: the document gets a new [_id] and goes last. *)
Definition insert_one (a : Activity) (c : Collection) : Collection :=
  c ++ [mkDocument (fresh_id c) a].

(** [find_one({"name": n})]: the first matching document, or [None]. *)
Fixpoint find_one (n : string) (c : Collection) : option Document :=
  match c with
  | [] => None
  | d :: c' => if matches n d then Some d else find_one n c'
  end.

(** The two update documents the handlers send. *)
Inductive Update :=
| Push (email : string)   (* {"$push": {"participants": email}} *)
| Pull (email : string).  (* {"$pull": {"participants": email}} *)

(** [$push] appends at the end; [$pull] removes every element equal to the
    value. *)
Definition apply_update (u : Update) (d : Document) : Document :=
  match u with
  | Push e => set_participants (participants (fields d) ++ [e]) d
  | Pull e =>
      set_participants (filter (fun x => x ≠ e) (participants (fields d))) d
  end.

(** Whether the update changes the document: a [$push] always does, a [$pull]
    only when the value occurs in the array. *)
Definition modifies (u : Update) (d : Document) : bool :=
  match u with
  | Push _ => true
  | Pull e => bool_decide (e ∈ participants (fields d))
  end.

Record UpdateResult := mkUpdateResult {
  matched_count : Z;
  modified_count : Z
}.

(** [update_one({"name": n}, u)]: applies [u] to the first matching document
    only, and reports how many documents matched and were modified. *)
Fixpoint update_one (n : string) (u : Update) (c : Collection)
  : UpdateResult * Collection :=
  match c with
  | [] => (mkUpdateResult 0 0, [])
  | d :: c' =>
      if matches n d
      then (mkUpdateResult 1 (if modifies u d then 1 else 0),
            apply_update u d :: c')
      else let '(r, c'') := update_one n u c' in (r, d :: c'')
  end.

(** ** Requests as computations over the collection *)

Record HTTPException := mkHTTPException {
  status_code : Z;
  detail : string
}.

Inductive Outcome (A : Type) :=
| Return (a : A)
| Raise (e : HTTPException).
Arguments Return {A} a.
Arguments Raise {A} e.

(** A coroutine of the application: it runs against the collection and ends
    with a value or an [HTTPException], leaving a collection behind. *)
Definition Motor (A : Type) := Collection -> Outcome A * Collection.

Global Instance Motor_ret : MRet Motor := fun A a c => (Return a, c).
Global Instance Motor_bind : MBind Motor := fun A B k m c =>
  match m c with
  | (Return a, c') => k a c'
  | (Raise e, c') => (Raise e, c')
  end.

Definition raise {A} (e : HTTPException) : Motor A := fun c => (Raise e, c).

(** A read of the collection. *)
Definition query {A} (f : Collection -> A) : Motor A :=
  fun c => (Return (f c), c).

(** A write that reports a result. *)
Definition command {A} (f : Collection -> A * Collection) : Motor A :=
  fun c => let '(a, c') := f c in (Return a, c').

(** [await m] hands control to the event loop until [m] has completed. *)
Definition await {A} (m : Motor A) : Motor A := m.

(** The status line FastAPI answers with: 200 for a returned body, the
    exception's code otherwise. *)
Definition status {A} (o : Outcome A) : Z :=
  match o with
  | Return _ => 200
  | Raise e => status_code e
  end.

(** ** The application *)

Definition initial_activities : list (string * Activity) :=
  [ ("Chess Club",
     mkActivity "Chess Club"
       "Learn strategies and compete in chess tournaments"
       "Fridays, 3:30 PM - 5:00 PM" 12
       ["michael@mergington.edu"; "daniel@mergington.edu"]);
    ("Programming Class",
     mkActivity "Programming Class"
       "Learn programming fundamentals and build software projects"
       "Tuesdays and Thursdays, 3:30 PM - 4:30 PM" 20
       ["emma@mergington.edu"; "sophia@mergington.edu"]);
    ("Gym Class",
     mkActivity "Gym Class"
       "Physical education and sports activities"
       "Mondays, Wednesdays, Fridays, 2:00 PM - 3:00 PM" 30
       ["john@mergington.edu"; "olivia@mergington.edu"]);
    ("Soccer Team",
     mkActivity "Soccer Team"
       "Join the school soccer team and compete in local leagues"
       "Wednesdays and Fridays, 4:00 PM - 5:30 PM" 18
       ["lucas@mergington.edu"; "mia@mergington.edu"]);
    ("Basketball Club",
     mkActivity "Basketball Club"
       "Practice basketball skills and play friendly matches"
       "Tuesdays, 5:00 PM - 6:30 PM" 15
       ["liam@mergington.edu"; "ava@mergington.edu"]);
    ("Art Club",
     mkActivity "Art Club"
       "Explore painting, drawing, and other visual arts"
       "Thursdays, 3:30 PM - 5:00 PM" 16
       ["noah@mergington.edu"; "isabella@mergington.edu"]);
    ("Drama Society",
     mkActivity "Drama Society"
       "Participate in school plays and drama workshops"
       "Mondays, 4:00 PM - 5:30 PM" 20
       ["amelia@mergington.edu"; "benjamin@mergington.edu"]);
    ("Math Olympiad",
     mkActivity "Math Olympiad"
       "Prepare for math competitions and solve challenging problems"
       "Wednesdays, 3:30 PM - 5:00 PM" 10
       ["charlotte@mergington.edu"; "elijah@mergington.edu"]);
    ("Debate Club",
     mkActivity "Debate Club"
       "Develop public speaking and argumentation skills"
       "Fridays, 4:00 PM - 5:30 PM" 14
       ["jack@mergington.edu"; "harper@mergington.edu"]) ].

(** [for activity in initial_activities.values(): await insert_one(activity)] *)
Fixpoint insert_each (acts : list Activity) : Motor unit :=
  match acts with
  | [] => mret tt
  | a :: acts' =>
      await (command (fun c => (tt, insert_one a c)));;
      insert_each acts'
  end.

(** The startup hook. *)
Definition seed_data : Motor unit :=
  n ← await (query count_documents);
  if Z.eqb n 0 then insert_each (map snd initial_activities) else mret tt.

(** [GET /activities]: the loop body pops ["_id"] and stores the rest under
    the document's name, a later document of the same name replacing an
    earlier one. *)
Definition get_activities : Motor (gmap string Activity) :=
  cursor ← await (query (fun c => c));
  mret (foldl (fun activities activity =>
                <[name (fields activity) := fields activity]> activities)
             ∅ cursor).

Record Message := mkMessage { message : string }.

Section Handlers.

(** What the other requests write to the collection while this one is
    suspended between its [find_one] and its [update_one]; the identity
    when the request runs alone. *)
Variable concurrent : Collection -> Collection.

Definition interleave : Motor unit := fun c => (Return tt, concurrent c).

(** [POST /activities/{activity_name}/signup] *)
Definition signup_for_activity (activity_name email : string)
  : Motor Message :=
  found ← await (query (find_one activity_name));
  match found with
  | None => raise (mkHTTPException 404 "Activity not found")
  | Some activity =>
      if bool_decide (email ∈ participants (fields activity))
      then raise (mkHTTPException 400 "Student already signed up")
      else if Z.geb (Z.of_nat (length (participants (fields activity))))
                    (max_participants (fields activity))
      then raise (mkHTTPException 400 "Max participants reached")
      else
        (* suspended until the update is served; the others write meanwhile *)
        await interleave;;
        result ← await (command (update_one activity_name (Push email)));
        if Z.eqb (modified_count result) 0
        then raise (mkHTTPException 500 "Failed to update activity")
        else mret (mkMessage
                    ("Signed up " +:+ email +:+ " for " +:+ activity_name))
  end.

(** [POST /activities/{activity_name}/unregister] *)
Definition unregister_from_activity (activity_name email : string)
  : Motor Message :=
  found ← await (query (find_one activity_name));
  match found with
  | None => raise (mkHTTPException 404 "Activity not found")
  | Some activity =>
      if bool_decide (email ∉ participants (fields activity))
      then raise (mkHTTPException 400 "Student not registered")
      else
        (* suspended until the update is served; the others write meanwhile *)
        await interleave;;
        result ← await (command (update_one activity_name (Pull email)));
        if Z.eqb (modified_count result) 0
        then raise (mkHTTPException 500 "Failed to update activity")
        else mret (mkMessage
                    ("Unregistered " +:+ email +:+ " from " +:+ activity_name))
  end.

End Handlers.

(** A request that runs alone. *)
Definition alone : Collection -> Collection := fun c => c.

Definition seeded : Collection := (seed_data []).2.

(** ** Names used in the statements *)

Definition Activity_not_found := mkHTTPException 404 "Activity not found".
Definition Student_already_signed_up :=
  mkHTTPException 400 "Student already signed up".
Definition Max_participants_reached :=
  mkHTTPException 400 "Max participants reached".
Definition Student_not_registered :=
  mkHTTPException 400 "Student not registered".
Definition Failed_to_update_activity :=
  mkHTTPException 500 "Failed to update activity".

(** At or over its capacity. *)
Definition full (a : Activity) : Prop :=
  Z.of_nat (length (participants a)) >= max_participants a.

(** No email twice, and no more participants than [max_participants]. *)
Definition well_formed (a : Activity) : Prop :=
  NoDup (participants a) /\
  Z.of_nat (length (participants a)) <= max_participants a.

Global Instance well_formed_dec a : Decision (well_formed a).
Proof. unfold well_formed. apply _. Defined.

(** The four operations of the service. *)
Inductive Operation :=
| Signup (activity_name email : string)
| Unregister (activity_name email : string)
| GetActivities
| SeedData.

(** The collection an operation leaves when it runs alone. *)
Definition after (op : Operation) (c : Collection) : Collection :=
  match op with
  | Signup n e => (signup_for_activity alone n e c).2
  | Unregister n e => (unregister_from_activity alone n e c).2
  | GetActivities => (get_activities c).2
  | SeedData => (seed_data c).2
  end.

(** The collections the service gets to from an empty database, one
    operation after the other. *)
Inductive reachable : Collection -> Prop :=
| reachable_empty : reachable []
| reachable_after op c : reachable c -> reachable (after op c).

(** Python's [sub in s] on strings. *)
Definition contains (s sub : string) : Prop :=
  exists pre post, s = pre +:+ sub +:+ post.

(** Another client of the database that removes every document while the
    request is suspended. *)
Definition dropped : Collection -> Collection := fun _ => [].

(** A collection whose only activity is full. *)
Definition full_house : Collection :=
  [ mkDocument 1%nat
      (mkActivity "Chess Club"
         "Learn strategies and compete in chess tournaments"
         "Fridays, 3:30 PM - 5:00 PM" 2
         ["michael@mergington.edu"; "daniel@mergington.edu"]) ].

(** A collection in which an email is stored twice, as two signups of one
    email that ran interleaved leave it. *)
Definition stored_twice : Collection :=
  [ mkDocument 1%nat
      (mkActivity "Chess Club"
         "Learn strategies and compete in chess tournaments"
         "Fridays, 3:30 PM - 5:00 PM" 12
         ["michael@mergington.edu"; "daniel@mergington.edu";
          "michael@mergington.edu"]) ].

(** The dict [get_activities] returns. *)
Definition listing (c : Collection) : gmap string Activity :=
  match (get_activities c).1 with
  | Return activities => activities
  | Raise _ => ∅
  end.

(** What no update of the handlers touches: every key but ["participants"]. *)
Definition static (d : Document) : ObjectId * string * string * string * Z :=
  (_id d, name (fields d), description (fields d), schedule (fields d),
   max_participants (fields d)).

(** A collection whose only activity has one place left. *)
Definition one_place_left : Collection :=
  [ mkDocument 1%nat
      (mkActivity "Chess Club"
         "Learn strategies and compete in chess tournaments"
         "Fridays, 3:30 PM - 5:00 PM" 3
         ["michael@mergington.edu"; "daniel@mergington.edu"]) ].

(** What two startup hooks leave when both count the documents before
    either inserts: every initial activity is stored twice. *)
Definition seeded_twice : Collection :=
  (insert_each (map snd initial_activities) seeded).2.

(** ** The collection interface: basic facts *)

(** [$pull] of a value the array does not hold leaves the array as it is. *)
Lemma pull_absent (e : string) (ps : list string) :
  e ∉ ps -> filter (fun x => x ≠ e) ps = ps.
Proof.
  induction ps as [|p ps IH]; intros He; [reflexivity|].
  apply not_elem_of_cons in He as [Hne Hin].
  rewrite filter_cons_True by congruence. now rewrite IH.
Qed.

(** After a [$pull] the value is gone, however often it occurred. *)
Lemma pull_removes (e : string) (ps : list string) :
  e ∉ filter (fun x => x ≠ e) ps.
Proof. rewrite list_elem_of_filter. intros [Hne _]. now apply Hne. Qed.

Lemma pull_push (e : string) (ps : list string) :
  e ∉ ps -> filter (fun x => x ≠ e) (ps ++ [e]) = ps.
Proof.
  intros He. rewrite filter_app, (pull_absent e ps He).
  rewrite filter_cons_False by (intros H; now apply H).
  apply app_nil_r.
Qed.

Lemma matches_true n d : matches n d = true <-> name (fields d) = n.
Proof. unfold matches. apply bool_decide_eq_true. Qed.

Lemma matches_false n d : matches n d = false <-> name (fields d) ≠ n.
Proof. unfold matches. apply bool_decide_eq_false. Qed.

Lemma find_one_None n c :
  find_one n c = None <-> (forall d, d ∈ c -> name (fields d) ≠ n).
Proof.
  induction c as [|x c IH]; simpl.
  - split; [intros _ d Hd; inversion Hd | reflexivity].
  - destruct (matches n x) eqn:Hx.
    + split; [discriminate|].
      intros H. apply matches_true in Hx. destruct (H x); [left | exact Hx].
    + apply matches_false in Hx. rewrite IH. split.
      * intros H d Hd. apply elem_of_cons in Hd as [->|Hd]; auto.
      * intros H d Hd. apply H. now right.
Qed.

Lemma find_one_Some n c d :
  find_one n c = Some d -> d ∈ c /\ name (fields d) = n.
Proof.
  induction c as [|x c IH]; simpl; [discriminate|].
  destruct (matches n x) eqn:Hx.
  - intros [= <-]. split; [left | now apply matches_true].
  - intros H. destruct (IH H). split; [now right | assumption].
Qed.

Lemma name_apply_update u d : name (fields (apply_update u d)) = name (fields d).
Proof. destruct u; reflexivity. Qed.

Lemma matches_apply_update n u d : matches n (apply_update u d) = matches n d.
Proof. unfold matches. now rewrite name_apply_update. Qed.

(** Without a matching document nothing is matched, modified or written. *)
Lemma update_one_None n u c :
  find_one n c = None -> update_one n u c = (mkUpdateResult 0 0, c).
Proof.
  induction c as [|x c IH]; simpl; [reflexivity|].
  destruct (matches n x); [discriminate|].
  intros H. now rewrite (IH H).
Qed.

(** With one, the update hits exactly the document [find_one] returns. *)
Lemma update_one_Some n u c d :
  find_one n c = Some d ->
  (update_one n u c).1 = mkUpdateResult 1 (if modifies u d then 1 else 0) /\
  find_one n (update_one n u c).2 = Some (apply_update u d).
Proof.
  induction c as [|x c IH]; simpl; [discriminate|].
  destruct (matches n x) eqn:Hx.
  - intros [= <-]. simpl. now rewrite matches_apply_update, Hx.
  - intros H. destruct (IH H) as [H1 H2].
    destruct (update_one n u c) as [r c'']. simpl in *. now rewrite Hx.
Qed.

Lemma update_one_length n u c : length (update_one n u c).2 = length c.
Proof.
  induction c as [|x c IH]; simpl; [reflexivity|].
  destruct (matches n x); [reflexivity|].
  destruct (update_one n u c) as [r c'']. simpl in *. now rewrite IH.
Qed.

(** Position by position, a document is either left as it was or it is the
    one [find_one] returns, updated. *)
Lemma update_one_lookup n u c (i : nat) d :
  c !! i = Some d ->
  (update_one n u c).2 !! i = Some d \/
  (find_one n c = Some d /\ (update_one n u c).2 !! i = Some (apply_update u d)).
Proof.
  revert i. induction c as [|x c IH]; intros i; simpl; [discriminate|].
  destruct (matches n x) eqn:Hx.
  - destruct i as [|i]; simpl.
    + intros [= <-]. right. split; reflexivity.
    + intros H. now left.
  - destruct (update_one n u c) as [r c''] eqn:Hu. simpl in *.
    destruct i as [|i]; simpl.
    + intros [= <-]. now left.
    + intros H. apply IH in H. exact H.
Qed.

(** A modified count of zero means nothing was written. *)
Lemma update_one_unmodified n u c :
  modified_count (update_one n u c).1 = 0 -> (update_one n u c).2 = c.
Proof.
  induction c as [|x c IH]; simpl; [reflexivity|].
  destruct (matches n x).
  - simpl. destruct u as [e|e]; simpl; [discriminate|].
    case_bool_decide as He; [discriminate|]. intros _.
    destruct x as [i [nm ds sc mx ps]]. unfold set_participants. simpl in *.
    do 3 f_equal. now apply pull_absent.
  - destruct (update_one n u c) as [r c'']. simpl in *.
    intros H. now rewrite (IH H).
Qed.

(** ** The handlers, step by step *)

Lemma geb_full a :
  Z.geb (Z.of_nat (length (participants a))) (max_participants a) = true
  <-> full a.
Proof. unfold full. rewrite Z.geb_le. lia. Qed.

Lemma signup_for_activity_run concurrent n e c :
  signup_for_activity concurrent n e c =
  match find_one n c with
  | None => (Raise Activity_not_found, c)
  | Some d =>
      if bool_decide (e ∈ participants (fields d))
      then (Raise Student_already_signed_up, c)
      else if Z.geb (Z.of_nat (length (participants (fields d))))
                    (max_participants (fields d))
      then (Raise Max_participants_reached, c)
      else
        let '(r, c') := update_one n (Push e) (concurrent c) in
        if Z.eqb (modified_count r) 0
        then (Raise Failed_to_update_activity, c')
        else (Return (mkMessage ("Signed up " +:+ e +:+ " for " +:+ n)), c')
  end.
Proof.
  unfold signup_for_activity, await, query, command, interleave, raise,
    mbind, mret, Motor_bind, Motor_ret.
  destruct (find_one n c) as [d|]; [|reflexivity].
  case_bool_decide; [reflexivity|].
  destruct (Z.geb _ _); [reflexivity|].
  destruct (update_one n (Push e) (concurrent c)) as [r c'].
  now destruct (Z.eqb _ _).
Qed.

Lemma unregister_from_activity_run concurrent n e c :
  unregister_from_activity concurrent n e c =
  match find_one n c with
  | None => (Raise Activity_not_found, c)
  | Some d =>
      if bool_decide (e ∉ participants (fields d))
      then (Raise Student_not_registered, c)
      else
        let '(r, c') := update_one n (Pull e) (concurrent c) in
        if Z.eqb (modified_count r) 0
        then (Raise Failed_to_update_activity, c')
        else (Return (mkMessage ("Unregistered " +:+ e +:+ " from " +:+ n)), c')
  end.
Proof.
  unfold unregister_from_activity, await, query, command, interleave, raise,
    mbind, mret, Motor_bind, Motor_ret.
  destruct (find_one n c) as [d|]; [|reflexivity].
  case_bool_decide; [reflexivity|].
  destruct (update_one n (Pull e) (concurrent c)) as [r c'].
  now destruct (Z.eqb _ _).
Qed.

(** The status of a signup, read off its steps. *)
Lemma signup_for_activity_answer concurrent n e c :
  status (signup_for_activity concurrent n e c).1 =
  match find_one n c with
  | None => 404
  | Some d =>
      if bool_decide (e ∈ participants (fields d)) then 400
      else if Z.geb (Z.of_nat (length (participants (fields d))))
                    (max_participants (fields d)) then 400
      else if Z.eqb (modified_count
                       (update_one n (Push e) (concurrent c)).1) 0 then 500
      else 200
  end.
Proof.
  rewrite signup_for_activity_run.
  destruct (find_one n c) as [d|]; [|reflexivity].
  case_bool_decide; [reflexivity|].
  destruct (Z.geb _ _); [reflexivity|].
  destruct (update_one n (Push e) (concurrent c)) as [r c']. simpl.
  now destruct (Z.eqb _ _).
Qed.

(** A request that runs alone always gets its update through: the 500 answer
    needs another writer. *)
Lemma signup_alone_not_500 n e c :
  status (signup_for_activity alone n e c).1 ≠ 500.
Proof.
  rewrite signup_for_activity_run.
  destruct (find_one n c) as [d|] eqn:Hf; [|simpl; lia].
  case_bool_decide; [simpl; lia|].
  destruct (Z.geb _ _); [simpl; lia|].
  destruct (update_one_Some n (Push e) c d Hf) as [Hr _]. unfold alone.
  destruct (update_one n (Push e) c) as [r c']. simpl in Hr. subst r.
  simpl. lia.
Qed.

Lemma unregister_alone_not_500 n e c :
  status (unregister_from_activity alone n e c).1 ≠ 500.
Proof.
  rewrite unregister_from_activity_run.
  destruct (find_one n c) as [d|] eqn:Hf; [|simpl; lia].
  case_bool_decide as He; [simpl; lia|].
  destruct (update_one_Some n (Pull e) c d Hf) as [Hr _]. unfold alone.
  destruct (update_one n (Pull e) c) as [r c']. simpl in Hr. subst r.
  simpl. rewrite bool_decide_true by (now apply dec_stable).
  simpl. lia.
Qed.

(** ** Answers of the signup and unregister requests *)

(** C2: [signup_for_activity] answers 404 when no document has the name, 400
    when the email is already among the participants, 400 when the activity
    is at (or over) its capacity, 500 when the update reports no modified
    document, and 200 in every other case. *)
Theorem signup_for_activity_status concurrent activity_name email c :
  let answer := status (signup_for_activity concurrent activity_name email c).1 in
  let result := (update_one activity_name (Push email) (concurrent c)).1 in
  ((forall d, d ∈ c -> name (fields d) ≠ activity_name) -> answer = 404) /\
  (forall activity, find_one activity_name c = Some activity ->
     (email ∈ participants (fields activity) -> answer = 400) /\
     (Z.of_nat (length (participants (fields activity)))
        >= max_participants (fields activity) -> answer = 400) /\
     (Z.of_nat (length (participants (fields activity)))
        = max_participants (fields activity) -> answer = 400) /\
     (email ∉ participants (fields activity) ->
      Z.of_nat (length (participants (fields activity)))
        < max_participants (fields activity) ->
      (modified_count result = 0 -> answer = 500) /\
      (modified_count result ≠ 0 -> answer = 200))).
Proof.
  intros answer result. subst answer result.
  rewrite signup_for_activity_answer. split.
  - intros Hnone. apply find_one_None in Hnone. now rewrite Hnone.
  - intros d ->. split; [|split; [|split]].
    + intros He. now rewrite bool_decide_true.
    + intros Hf. apply geb_full in Hf. rewrite Hf. now case_bool_decide.
    + intros Hf. assert (Hfull : full (fields d)) by (unfold full; lia).
      apply geb_full in Hfull. rewrite Hfull. now case_bool_decide.
    + intros He Hlt. rewrite bool_decide_false by assumption.
      destruct (Z.geb _ _) eqn:Hg;
        [apply geb_full in Hg; unfold full in Hg; lia|].
      split; intros Hm.
      * now rewrite Hm.
      * apply Z.eqb_neq in Hm. now rewrite Hm.
Qed.

(** C9: the duplicate check comes before the capacity check: a full activity
    that already lists the email answers 400 "Student already signed up". *)
Theorem signup_for_activity_duplicate_before_capacity
    concurrent activity_name email c activity :
  find_one activity_name c = Some activity ->
  email ∈ participants (fields activity) ->
  Z.of_nat (length (participants (fields activity)))
    >= max_participants (fields activity) ->
  (signup_for_activity concurrent activity_name email c).1
    = Raise (mkHTTPException 400 "Student already signed up") /\
  (signup_for_activity concurrent activity_name email c).1
    ≠ Raise (mkHTTPException 400 "Max participants reached").
Proof.
  intros Hf He _. rewrite signup_for_activity_run, Hf.
  rewrite bool_decide_true by assumption. simpl. split; [reflexivity|].
  intros [=].
Qed.

(** C3: [unregister_from_activity] answers 404 when no document has the name,
    400 when the email is not among the participants and 500 when the update
    reports no modified document; otherwise it returns its confirmation and
    the stored document of the activity is the one the update found with
    every participant equal to the email removed, the other participants in
    their order and every other field as it was. *)
Theorem unregister_from_activity_status concurrent activity_name email c :
  let run := unregister_from_activity concurrent activity_name email c in
  let result := (update_one activity_name (Pull email) (concurrent c)).1 in
  ((forall d, d ∈ c -> name (fields d) ≠ activity_name) ->
     status run.1 = 404) /\
  (forall activity, find_one activity_name c = Some activity ->
     (email ∉ participants (fields activity) -> status run.1 = 400) /\
     (email ∈ participants (fields activity) ->
      (modified_count result = 0 -> status run.1 = 500) /\
      (modified_count result ≠ 0 ->
         status run.1 = 200 /\
         run.1 = Return (mkMessage ("Unregistered " +:+ email +:+ " from "
                                      +:+ activity_name)) /\
         exists found stored,
           find_one activity_name (concurrent c) = Some found /\
           find_one activity_name run.2 = Some stored /\
           participants (fields stored)
             = filter (fun x => x ≠ email) (participants (fields found)) /\
           static stored = static found /\
           (email ∉ participants (fields stored)) /\
           (concurrent c = c -> found = activity)))).
Proof.
  intros run result. subst run result.
  rewrite unregister_from_activity_run. split.
  - intros Hnone. apply find_one_None in Hnone. now rewrite Hnone.
  - intros d Hf. rewrite Hf. split.
    + intros He. now rewrite bool_decide_true.
    + intros He. rewrite bool_decide_false by (intros H; now apply H).
      destruct (find_one activity_name (concurrent c)) as [d'|] eqn:Hf'.
      * destruct (update_one_Some _ (Pull email) _ _ Hf') as [Hr Hs].
        destruct (update_one activity_name (Pull email) (concurrent c)) as [r c'].
        simpl in *. split; intros Hm.
        -- now rewrite Hm.
        -- apply Z.eqb_neq in Hm. rewrite Hm. simpl.
           do 2 (split; [reflexivity|]).
           exists d', (apply_update (Pull email) d').
           split; [reflexivity|]. split; [exact Hs|].
           split; [reflexivity|]. split; [reflexivity|].
           split; [simpl; apply pull_removes|].
           intros Hc. rewrite Hc in Hf'. congruence.
      * rewrite (update_one_None _ _ _ Hf'). simpl.
        split; [reflexivity|]. intros H. now destruct H.
Qed.

(** C4, as the code has it: a signup or unregister request that ends in a
    404 or a 400 leaves the collection identical to the one it found, so
    enrolling an email already present and unregistering an absent one
    change nothing; a request that ends in a 500 has written nothing itself,
    and the collection is then the one the other writers left, identical to
    the one before the request only when they changed nothing. *)
Theorem failed_request_writes_nothing concurrent activity_name email c e c' :
  signup_for_activity concurrent activity_name email c = (Raise e, c') \/
  unregister_from_activity concurrent activity_name email c = (Raise e, c') ->
  (status_code e = 404 \/ status_code e = 400 \/ status_code e = 500) /\
  (status_code e ≠ 500 -> c' = c) /\
  (status_code e = 500 -> c' = concurrent c) /\
  (concurrent c = c -> c' = c).
Proof.
  assert (Hupd : forall u r c1,
             update_one activity_name u (concurrent c) = (r, c1) ->
             Z.eqb (modified_count r) 0 = true -> c1 = concurrent c).
  { intros u r c1 Hu Hm. apply Z.eqb_eq in Hm.
    pose proof (update_one_unmodified activity_name u (concurrent c)) as H.
    rewrite Hu in H. simpl in H. now apply H. }
  rewrite signup_for_activity_run, unregister_from_activity_run.
  intros [H|H]; destruct (find_one activity_name c) as [d|];
    repeat match type of H with
      | (if bool_decide ?P then _ else _) = _ => destruct (bool_decide P)
      | (if Z.geb ?a ?b then _ else _) = _ => destruct (Z.geb a b)
      | (let '(_, _) := ?u in _) = _ =>
          let r := fresh "r" in let c1 := fresh "c1" in
          let Hu := fresh "Hu" in
          destruct u as [r c1] eqn:Hu
      | (if Z.eqb ?a ?b then _ else _) = _ =>
          let Hm := fresh "Hm" in destruct (Z.eqb a b) eqn:Hm
      end;
    inversion H; subst; clear H; simpl;
    try (apply Hupd in Hu; [subst c'|assumption]);
    repeat split; auto; try lia; try congruence.
Qed.

(** C4 as stated, with 500 among the errors after which the collection is
    identical to the one before the request, fails: an unregister whose
    update is served after another unregister of the same email answers 500,
    and the collection is no longer the one the request found; the same
    holds of a signup whose activity is removed meanwhile. *)
Lemma failed_request_500_store_differs :
  (unregister_from_activity
     (after (Unregister "Chess Club" "michael@mergington.edu"))
     "Chess Club" "michael@mergington.edu" seeded
   = (Raise (mkHTTPException 500 "Failed to update activity"),
      after (Unregister "Chess Club" "michael@mergington.edu") seeded) /\
   after (Unregister "Chess Club" "michael@mergington.edu") seeded ≠ seeded) /\
  (signup_for_activity dropped "Chess Club" "new@mergington.edu" seeded
   = (Raise (mkHTTPException 500 "Failed to update activity"), []) /\
   [] ≠ seeded).
Proof.
  split; split.
  - vm_compute. reflexivity.
  - intros Heq.
    apply (f_equal (fun c => (fun d => length (participants (fields d)))
                               <$> find_one "Chess Club" c)) in Heq.
    vm_compute in Heq. discriminate Heq.
  - vm_compute. reflexivity.
  - intros Heq. apply (f_equal length) in Heq. discriminate Heq.
Qed.

(** ** The invariant of an activity *)

Lemma insert_each_run acts c :
  insert_each acts c =
  (Return tt, foldl (fun c a => insert_one a c) c acts).
Proof.
  revert c. induction acts as [|a acts IH]; intros c; [reflexivity|].
  simpl. unfold await, command, mbind, Motor_bind. simpl. apply IH.
Qed.

Lemma seed_data_run c :
  seed_data c =
  (Return tt,
   match c with
   | [] => foldl (fun c a => insert_one a c) [] (map snd initial_activities)
   | _ :: _ => c
   end).
Proof.
  unfold seed_data, await, query, mbind, Motor_bind, count_documents.
  destruct c as [|d c].
  - simpl Z.eqb. cbv iota. apply insert_each_run.
  - replace (Z.eqb (Z.of_nat (length (d :: c))) 0) with false; [reflexivity|].
    symmetry. apply Z.eqb_neq. simpl length. lia.
Qed.

Lemma get_activities_run c :
  get_activities c =
  (Return (foldl (fun activities activity =>
                    <[name (fields activity) := fields activity]> activities)
                 ∅ c), c).
Proof. reflexivity. Qed.

Lemma seeded_well_formed : Forall (fun d => well_formed (fields d)) seeded.
Proof.
  apply (bool_decide_unpack _). vm_compute. reflexivity.
Qed.

Lemma well_formed_push e d :
  well_formed (fields d) ->
  e ∉ participants (fields d) ->
  Z.of_nat (length (participants (fields d))) < max_participants (fields d) ->
  well_formed (fields (apply_update (Push e) d)).
Proof.
  intros [Hnd Hle] He Hlt. split; simpl.
  - apply NoDup_app. repeat split; [assumption| |apply NoDup_singleton].
    intros x Hx Hx'. apply list_elem_of_singleton in Hx'. now subst.
  - rewrite length_app. simpl. lia.
Qed.

Lemma well_formed_pull e d :
  well_formed (fields d) -> well_formed (fields (apply_update (Pull e) d)).
Proof.
  intros [Hnd Hle]. split; simpl.
  - now apply NoDup_filter.
  - pose proof (length_filter (fun x => x ≠ e) (participants (fields d))). lia.
Qed.

(** What a signup leaves at each position of the collection. *)
Lemma after_signup_lookup n e c (i : nat) d :
  c !! i = Some d ->
  after (Signup n e) c !! i = Some d \/
  (after (Signup n e) c !! i = Some (apply_update (Push e) d) /\
   (e ∉ participants (fields d)) /\
   Z.of_nat (length (participants (fields d))) < max_participants (fields d)).
Proof.
  intros Hi. unfold after. rewrite signup_for_activity_run.
  destruct (find_one n c) as [d0|] eqn:Hf; [|now left].
  case_bool_decide as He; [now left|].
  destruct (Z.geb _ _) eqn:Hg; [now left|].
  assert (Hlt : Z.of_nat (length (participants (fields d0)))
                < max_participants (fields d0)).
  { destruct (Z.geb_spec (Z.of_nat (length (participants (fields d0))))
                (max_participants (fields d0))); [discriminate | lia]. }
  unfold alone.
  destruct (update_one_lookup n (Push e) c i d Hi) as [H|[H1 H2]].
  - left. destruct (update_one n (Push e) c) as [r c'].
    now destruct (Z.eqb _ _).
  - right. rewrite Hf in H1. injection H1 as ->.
    destruct (update_one n (Push e) c) as [r c'].
    now destruct (Z.eqb _ _).
Qed.

Lemma after_unregister_lookup n e c (i : nat) d :
  c !! i = Some d ->
  after (Unregister n e) c !! i = Some d \/
  after (Unregister n e) c !! i = Some (apply_update (Pull e) d).
Proof.
  intros Hi. unfold after. rewrite unregister_from_activity_run.
  destruct (find_one n c) as [d0|] eqn:Hf; [|now left].
  case_bool_decide as He; [now left|].
  unfold alone.
  destruct (update_one_lookup n (Pull e) c i d Hi) as [H|[H1 H2]];
    [left|right]; destruct (update_one n (Pull e) c) as [r c'];
    now destruct (Z.eqb _ _).
Qed.

Lemma after_length op c : c ≠ [] -> length (after op c) = length c.
Proof.
  intros Hc. destruct op as [n e|n e| |]; unfold after.
  - rewrite signup_for_activity_run.
    destruct (find_one n c); [|reflexivity].
    case_bool_decide; [reflexivity|].
    destruct (Z.geb _ _); [reflexivity|].
    pose proof (update_one_length n (Push e) (alone c)) as Hl.
    destruct (update_one n (Push e) (alone c)) as [r c'].
    now destruct (Z.eqb _ _).
  - rewrite unregister_from_activity_run.
    destruct (find_one n c); [|reflexivity].
    case_bool_decide; [reflexivity|].
    pose proof (update_one_length n (Pull e) (alone c)) as Hl.
    destruct (update_one n (Pull e) (alone c)) as [r c'].
    now destruct (Z.eqb _ _).
  - reflexivity.
  - rewrite seed_data_run. now destruct c.
Qed.

(** Every operation, run alone, keeps a well-formed record well-formed. *)
Lemma after_lookup_well_formed op c (i : nat) d :
  c !! i = Some d ->
  well_formed (fields d) ->
  exists d', after op c !! i = Some d' /\ well_formed (fields d').
Proof.
  intros Hi Hwf. destruct op as [n e|n e| |].
  - destruct (after_signup_lookup n e c i d Hi) as [H|(H & He & Hlt)].
    + now exists d.
    + eexists. split; [exact H|]. now apply well_formed_push.
  - destruct (after_unregister_lookup n e c i d Hi) as [H|H].
    + now exists d.
    + eexists. split; [exact H|]. now apply well_formed_pull.
  - now exists d.
  - exists d. unfold after. rewrite seed_data_run.
    destruct c; [discriminate|]. now split.
Qed.

(** C1: an activity record without duplicate emails and with at most
    [max_participants] participants keeps both properties through any single
    operation run alone (signup, unregister, listing, seeding); and when all
    records of the collection have them before, all have them afterwards. *)
Theorem operations_preserve_invariants op c :
  (forall (i : nat) d,
      c !! i = Some d ->
      NoDup (participants (fields d)) ->
      Z.of_nat (length (participants (fields d)))
        <= max_participants (fields d) ->
      exists d',
        after op c !! i = Some d' /\
        NoDup (participants (fields d')) /\
        Z.of_nat (length (participants (fields d')))
          <= max_participants (fields d')) /\
  (Forall (fun d => well_formed (fields d)) c ->
   Forall (fun d => well_formed (fields d)) (after op c)).
Proof.
  split.
  - intros i d Hi Hnd Hle.
    destruct (after_lookup_well_formed op c i d Hi (conj Hnd Hle))
      as (d' & H & Hnd' & Hle').
    now exists d'.
  - intros Hall. destruct c as [|d0 c0] eqn:Hc.
    + destruct op as [n e|n e| |].
      * unfold after. now rewrite signup_for_activity_run.
      * unfold after. now rewrite unregister_from_activity_run.
      * exact Hall.
      * exact seeded_well_formed.
    + rewrite <- Hc in *. assert (Hne : c ≠ []) by (now subst).
      apply Forall_lookup. intros i d' Hi'.
      destruct (c !! i) as [d|] eqn:Hi.
      * rewrite Forall_lookup in Hall.
        destruct (after_lookup_well_formed op c i d Hi (Hall i d Hi))
          as (d'' & H & Hwf).
        assert (d'' = d') as <- by congruence. exact Hwf.
      * apply lookup_ge_None in Hi. apply lookup_lt_Some in Hi'.
        rewrite (after_length op c Hne) in Hi'. lia.
Qed.

(** Not so when two signups of one email interleave: both pass the checks
    before either writes, and the email is stored twice. *)
Example interleaved_signups_store_twice :
  let other c :=
    (signup_for_activity alone "Chess Club" "new@mergington.edu" c).2 in
  (fun d => participants (fields d)) <$>
    find_one "Chess Club"
      (signup_for_activity other "Chess Club" "new@mergington.edu" seeded).2
  = Some ["michael@mergington.edu"; "daniel@mergington.edu";
          "new@mergington.edu"; "new@mergington.edu"].
Proof. vm_compute. reflexivity. Qed.

(** ** Signup, then unregister *)

Lemma apply_pull_push e d :
  e ∉ participants (fields d) ->
  apply_update (Pull e) (apply_update (Push e) d) = d.
Proof.
  intros He. destruct d as [i [nm ds sc mx ps]].
  unfold apply_update, set_participants. simpl in *.
  now rewrite pull_push.
Qed.

Lemma update_one_pull_push n e c d :
  find_one n c = Some d ->
  e ∉ participants (fields d) ->
  update_one n (Pull e) (update_one n (Push e) c).2 = (mkUpdateResult 1 1, c).
Proof.
  intros Hf He. induction c as [|x c IH]; [discriminate|].
  cbn [find_one] in Hf. cbn [update_one].
  destruct (matches n x) eqn:Hx.
  - injection Hf as ->. cbn [snd update_one].
    rewrite matches_apply_update, Hx.
    rewrite apply_pull_push by assumption.
    replace (modifies (Pull e) (apply_update (Push e) d)) with true;
      [reflexivity|].
    symmetry. apply bool_decide_eq_true. simpl.
    apply elem_of_app. right. apply list_elem_of_singleton. reflexivity.
  - specialize (IH Hf).
    destruct (update_one n (Push e) c) as [r c1].
    cbn [snd update_one] in *. now rewrite Hx, IH.
Qed.

(** C5: when a signup of [email] for [activity_name] succeeds, an unregister
    of the same email run right after it, with no request in between,
    succeeds too and puts the participants of the activity back to the
    sequence they were before the signup; in fact the whole collection is
    back. *)
Theorem signup_then_unregister activity_name email c m c' :
  signup_for_activity alone activity_name email c = (Return m, c') ->
  exists m' c'' before afterwards,
    unregister_from_activity alone activity_name email c' = (Return m', c'') /\
    find_one activity_name c = Some before /\
    find_one activity_name c'' = Some afterwards /\
    participants (fields afterwards) = participants (fields before) /\
    c'' = c.
Proof.
  rewrite signup_for_activity_run.
  destruct (find_one activity_name c) as [d|] eqn:Hf; [|discriminate].
  case_bool_decide as He; [discriminate|].
  destruct (Z.geb _ _); [discriminate|].
  unfold alone.
  destruct (update_one_Some activity_name (Push email) c d Hf) as [Hr Hs].
  pose proof (update_one_pull_push activity_name email c d Hf He) as Hpp.
  destruct (update_one activity_name (Push email) c) as [r c1].
  simpl in Hr, Hs, Hpp.
  destruct (Z.eqb _ _); [discriminate|].
  intros [= <- <-].
  exists (mkMessage ("Unregistered " +:+ email +:+ " from " +:+ activity_name)),
    c, d, d.
  split; [|repeat split; assumption].
  rewrite unregister_from_activity_run, Hs.
  rewrite bool_decide_false; [now rewrite Hpp|].
  intros Hn. apply Hn. simpl.
  apply elem_of_app. right. apply list_elem_of_singleton. reflexivity.
Qed.

(** ** What a successful request stores *)

Lemma append_nil_r (s : string) : s +:+ "" = s.
Proof.
  induction s as [|a s IH]; [reflexivity|].
  change (String a (s +:+ "") = String a s). now rewrite IH.
Qed.

Lemma append_assoc (s t u : string) : (s +:+ t) +:+ u = s +:+ t +:+ u.
Proof.
  induction s as [|a s IH]; [reflexivity|].
  change (String a ((s +:+ t) +:+ u) = String a (s +:+ t +:+ u)).
  now rewrite IH.
Qed.

Lemma signed_up_contains e n :
  contains ("Signed up " +:+ e +:+ " for " +:+ n) e /\
  contains ("Signed up " +:+ e +:+ " for " +:+ n) n.
Proof.
  split.
  - exists "Signed up ", (" for " +:+ n). reflexivity.
  - exists ("Signed up " +:+ e +:+ " for "), "".
    now rewrite append_nil_r, !append_assoc.
Qed.

(** C7: after a successful signup the stored participants of the activity
    are the ones the update found with the email appended at the end, one
    longer than before, and the confirmation names the activity and the
    email.  Alone on the seeded collection, signing "new@mergington.edu" up
    for "Chess Club" (2 participants, at most 12) succeeds and leaves 3. *)
Theorem signup_for_activity_success :
  (forall concurrent activity_name email c m c',
      signup_for_activity concurrent activity_name email c = (Return m, c') ->
      (exists before afterwards,
          find_one activity_name (concurrent c) = Some before /\
          find_one activity_name c' = Some afterwards /\
          participants (fields afterwards)
            = participants (fields before) ++ [email] /\
          length (participants (fields afterwards))
            = S (length (participants (fields before)))) /\
      contains (message m) activity_name /\
      contains (message m) email) /\
  (exists chess m3 c3 chess3,
      find_one "Chess Club" seeded = Some chess /\
      length (participants (fields chess)) = 2%nat /\
      max_participants (fields chess) = 12 /\
      signup_for_activity alone "Chess Club" "new@mergington.edu" seeded
        = (Return m3, c3) /\
      find_one "Chess Club" c3 = Some chess3 /\
      participants (fields chess3)
        = participants (fields chess) ++ ["new@mergington.edu"] /\
      length (participants (fields chess3)) = 3%nat).
Proof.
  split; [|eexists _, _, _, _; repeat split].
  intros concurrent activity_name email c m c'.
  rewrite signup_for_activity_run.
  destruct (find_one activity_name c) as [d|]; [|discriminate].
  case_bool_decide; [discriminate|].
  destruct (Z.geb _ _); [discriminate|].
  destruct (find_one activity_name (concurrent c)) as [d'|] eqn:Hf'.
  - destruct (update_one_Some _ (Push email) _ _ Hf') as [Hr Hs].
    destruct (update_one activity_name (Push email) (concurrent c)) as [r c1].
    simpl in Hr, Hs. destruct (Z.eqb _ _); [discriminate|].
    intros [= <- <-].
    split; [|split; apply (signed_up_contains email activity_name)].
    exists d', (apply_update (Push email) d').
    repeat split; [assumption|]. simpl. rewrite length_app. simpl. lia.
  - rewrite (update_one_None _ _ _ Hf'). discriminate.
Qed.

(** C10: a successful unregister pulls every occurrence of the email: the
    stored participants are the ones the update found without any element
    equal to the email, so the email is absent afterwards even when it was
    stored more than once. *)
Theorem unregister_from_activity_removes_all
    concurrent activity_name email c m c' :
  unregister_from_activity concurrent activity_name email c = (Return m, c') ->
  exists before afterwards,
    find_one activity_name (concurrent c) = Some before /\
    find_one activity_name c' = Some afterwards /\
    participants (fields afterwards)
      = filter (fun x => x ≠ email) (participants (fields before)) /\
    (email ∉ participants (fields afterwards)) /\
    (forall x, x ≠ email ->
       x ∈ participants (fields afterwards) <-> x ∈ participants (fields before)).
Proof.
  rewrite unregister_from_activity_run.
  destruct (find_one activity_name c) as [d|]; [|discriminate].
  case_bool_decide; [discriminate|].
  destruct (find_one activity_name (concurrent c)) as [d'|] eqn:Hf'.
  - destruct (update_one_Some _ (Pull email) _ _ Hf') as [Hr Hs].
    destruct (update_one activity_name (Pull email) (concurrent c)) as [r c1].
    simpl in Hr, Hs. destruct (Z.eqb _ _); [discriminate|].
    intros [= <- <-].
    exists d', (apply_update (Pull email) d').
    repeat split; try assumption; simpl.
    + apply pull_removes.
    + rewrite list_elem_of_filter. now intros [_ Hx].
    + intros Hx. apply list_elem_of_filter. now split.
  - rewrite (update_one_None _ _ _ Hf'). discriminate.
Qed.

(** ** Listing and seeding *)

(** The dict [get_activities] builds, read at one key: the record of the last
    document of that name. *)
Lemma get_activities_lookup c n :
  foldl (fun activities activity =>
           <[name (fields activity) := fields activity]> activities)
        (∅ : gmap string Activity) c !! n
  = fields <$> last (filter (fun d => name (fields d) = n) c).
Proof.
  induction c as [|x c IH] using rev_ind; [reflexivity|].
  rewrite foldl_snoc, filter_app, lookup_insert.
  destruct (decide (name (fields x) = n)) as [Hx|Hx].
  - rewrite (filter_cons_True _ x []) by exact Hx.
    now rewrite filter_nil, last_snoc.
  - rewrite (filter_cons_False _ x []) by exact Hx.
    now rewrite filter_nil, app_nil_r.
Qed.

Lemma last_filter_elem_of n c d :
  last (filter (fun d => name (fields d) = n) c) = Some d ->
  d ∈ c /\ name (fields d) = n.
Proof.
  intros H. apply last_Some_elem_of in H.
  apply list_elem_of_filter in H. tauto.
Qed.

Lemma last_filter_unique c d :
  NoDup (map (fun d => name (fields d)) c) ->
  d ∈ c ->
  last (filter (fun x => name (fields x) = name (fields d)) c) = Some d.
Proof.
  induction c as [|x c IH] using rev_ind; intros Hnd Hd; [inversion Hd|].
  rewrite map_app in Hnd. apply NoDup_app in Hnd as (Hnd & Hx & _).
  rewrite filter_app. apply elem_of_app in Hd as [Hd|Hd].
  - rewrite (filter_cons_False _ x []), filter_nil, app_nil_r; [now apply IH|].
    intros Heq. apply (Hx (name (fields d))).
    + apply list_elem_of_In, in_map_iff. exists d.
      split; [reflexivity | now apply list_elem_of_In].
    + rewrite <- Heq. simpl. left.
  - apply list_elem_of_singleton in Hd as ->.
    rewrite (filter_cons_True _ x []) by reflexivity.
    now rewrite filter_nil, last_snoc.
Qed.

Lemma update_one_names n u c :
  map (fun d => name (fields d)) (update_one n u c).2
  = map (fun d => name (fields d)) c.
Proof.
  induction c as [|x c IH]; [reflexivity|].
  cbn [update_one]. destruct (matches n x).
  - cbn [snd map]. now rewrite name_apply_update.
  - destruct (update_one n u c) as [r c1]. cbn [snd map] in *. now rewrite IH.
Qed.

(** No operation renames, removes or adds a document once there is one. *)
Lemma after_names op c :
  c ≠ [] ->
  map (fun d => name (fields d)) (after op c)
  = map (fun d => name (fields d)) c.
Proof.
  intros Hc. destruct op as [n e|n e| |]; unfold after.
  - rewrite signup_for_activity_run.
    destruct (find_one n c); [|reflexivity].
    case_bool_decide; [reflexivity|].
    destruct (Z.geb _ _); [reflexivity|].
    pose proof (update_one_names n (Push e) (alone c)) as Hn.
    destruct (update_one n (Push e) (alone c)) as [r c'].
    now destruct (Z.eqb _ _).
  - rewrite unregister_from_activity_run.
    destruct (find_one n c); [|reflexivity].
    case_bool_decide; [reflexivity|].
    pose proof (update_one_names n (Pull e) (alone c)) as Hn.
    destruct (update_one n (Pull e) (alone c)) as [r c'].
    now destruct (Z.eqb _ _).
  - reflexivity.
  - rewrite seed_data_run. now destruct c.
Qed.

(** The names stay unique identifiers. *)
Lemma reachable_names c :
  reachable c -> NoDup (map (fun d => name (fields d)) c).
Proof.
  induction 1 as [|op c Hr IH]; [constructor|].
  destruct c as [|d0 c0] eqn:Hc.
  - destruct op as [n e|n e| |].
    + constructor.
    + constructor.
    + constructor.
    + apply (bool_decide_unpack _). vm_compute. reflexivity.
  - rewrite after_names by discriminate. exact IH.
Qed.

(** C8: [get_activities] always returns, leaves the collection as it was,
    and its result maps the name of each stored activity to the full record
    of the stored activity of that name, without [_id] and with the other
    five fields as stored (the last such record, would a name occur twice,
    which no sequence of operations from an empty database brings about);
    it has no other keys, and it is empty for an empty collection. *)
Theorem get_activities_mapping c :
  exists activities : gmap string Activity,
    get_activities c = (Return activities, c) /\
    (forall d, d ∈ c ->
       exists d', last (filter (fun x => name (fields x) = name (fields d)) c)
                  = Some d' /\
                  d' ∈ c /\
                  name (fields d') = name (fields d) /\
                  activities !! name (fields d) = Some (fields d') /\
                  (NoDup (map (fun x => name (fields x)) c) -> d' = d)) /\
    (reachable c ->
     forall d, d ∈ c -> activities !! name (fields d) = Some (fields d)) /\
    (forall n a, activities !! n = Some a ->
       exists d, d ∈ c /\ name (fields d) = n /\ a = fields d) /\
    (c = [] -> activities = ∅).
Proof.
  eexists. split; [apply get_activities_run|]. split; [|split; [|split]].
  - intros d Hd.
    destruct (last (filter (fun x => name (fields x) = name (fields d)) c))
      as [d'|] eqn:Hl.
    + destruct (last_filter_elem_of _ _ _ Hl) as [Hin Hn].
      exists d'. repeat split; try assumption.
      * now rewrite get_activities_lookup, Hl.
      * intros Hnd. rewrite (last_filter_unique c d Hnd Hd) in Hl. congruence.
    + apply last_None in Hl.
      assert (d ∈ filter (fun x => name (fields x) = name (fields d)) c) as Hf
        by (now apply list_elem_of_filter).
      rewrite Hl in Hf. inversion Hf.
  - intros Hr d Hd. rewrite get_activities_lookup.
    now rewrite (last_filter_unique c d (reachable_names c Hr) Hd).
  - intros n a. rewrite get_activities_lookup.
    destruct (last _) as [d|] eqn:Hl; [|discriminate].
    intros [= <-]. destruct (last_filter_elem_of _ _ _ Hl).
    now exists d.
  - now intros ->.
Qed.

(** C6: on a collection without documents [seed_data] inserts the nine
    initial activities, in their order, and [get_activities] then returns
    exactly them under their names, "Chess Club" with its 2 participants and
    a maximum of 12 among them; on a collection that holds a document,
    [seed_data] inserts nothing. *)
Theorem seed_data_initial_activities :
  (exists activities chess,
      seed_data [] = (Return tt, seeded) /\
      map fields seeded = map snd initial_activities /\
      get_activities seeded = (Return activities, seeded) /\
      activities = list_to_map initial_activities /\
      size activities = 9%nat /\
      map_to_list activities ≡ₚ initial_activities /\
      activities !! "Chess Club" = Some chess /\
      name chess = "Chess Club" /\
      length (participants chess) = 2%nat /\
      max_participants chess = 12) /\
  (forall c, count_documents c >= 1 -> seed_data c = (Return tt, c)).
Proof.
  split.
  - exists (list_to_map initial_activities). eexists.
    split; [reflexivity|]. split; [reflexivity|].
    split; [vm_compute; reflexivity|].
    split; [reflexivity|].
    assert (Hnd : NoDup (initial_activities.*1)).
    { apply (bool_decide_unpack _). vm_compute. reflexivity. }
    split; [|split; [now apply map_to_list_to_map|]].
    + rewrite <- length_map_to_list, (map_to_list_to_map _ Hnd). reflexivity.
    + split; [vm_compute; reflexivity|]. repeat split.
  - intros c Hc. rewrite seed_data_run.
    destruct c; [unfold count_documents in Hc; simpl in Hc; lia | reflexivity].
Qed.

(** ** The theorems at concrete requests *)

(** On the seeded collection a signup for "Chess Club" leaves its record
    well-formed, and every record with it. *)
Lemma operations_preserve_invariants_witness :
  (exists d',
      after (Signup "Chess Club" "new@mergington.edu") seeded !! 0%nat
        = Some d' /\
      NoDup (participants (fields d')) /\
      Z.of_nat (length (participants (fields d')))
        <= max_participants (fields d')) /\
  Forall (fun d => well_formed (fields d))
    (after (Signup "Chess Club" "new@mergington.edu") seeded).
Proof.
  pose proof (operations_preserve_invariants
                (Signup "Chess Club" "new@mergington.edu") seeded) as [H1 H2].
  split.
  - eapply (H1 0%nat).
    + reflexivity.
    + apply (bool_decide_unpack _). vm_compute. reflexivity.
    + vm_compute. discriminate.
  - apply H2. apply (bool_decide_unpack _). vm_compute. reflexivity.
Defined.

(** A signup whose update finds the documents gone answers 500. *)
Lemma signup_for_activity_status_witness :
  status (signup_for_activity dropped "Chess Club" "new@mergington.edu"
            seeded).1 = 500.
Proof.
  pose proof (signup_for_activity_status dropped "Chess Club"
                "new@mergington.edu" seeded) as H.
  cbv zeta in H. destruct H as [_ H].
  destruct (H _ eq_refl) as (_ & _ & _ & H').
  apply H'.
  - apply (bool_decide_unpack _). vm_compute. reflexivity.
  - vm_compute. reflexivity.
  - reflexivity.
Defined.

(** Full and already signed up: the answer names the duplicate. *)
Lemma signup_for_activity_duplicate_before_capacity_witness :
  (signup_for_activity alone "Chess Club" "michael@mergington.edu"
     full_house).1
    = Raise (mkHTTPException 400 "Student already signed up") /\
  (signup_for_activity alone "Chess Club" "michael@mergington.edu"
     full_house).1
    ≠ Raise (mkHTTPException 400 "Max participants reached").
Proof.
  eapply (signup_for_activity_duplicate_before_capacity alone "Chess Club"
            "michael@mergington.edu" full_house).
  - reflexivity.
  - apply (bool_decide_unpack _). vm_compute. reflexivity.
  - vm_compute. discriminate.
Defined.

(** Unregistering a seeded participant succeeds and removes the email. *)
Lemma unregister_from_activity_status_witness :
  status (unregister_from_activity alone "Chess Club"
            "michael@mergington.edu" seeded).1 = 200 /\
  (unregister_from_activity alone "Chess Club" "michael@mergington.edu"
     seeded).1
    = Return (mkMessage ("Unregistered " +:+ "michael@mergington.edu"
                           +:+ " from " +:+ "Chess Club")) /\
  exists found stored,
    find_one "Chess Club" (alone seeded) = Some found /\
    find_one "Chess Club"
      (unregister_from_activity alone "Chess Club" "michael@mergington.edu"
         seeded).2 = Some stored /\
    participants (fields stored)
      = filter (fun x => x ≠ "michael@mergington.edu")
          (participants (fields found)) /\
    static stored = static found /\
    ("michael@mergington.edu" ∉ participants (fields stored)) /\
    (alone seeded = seeded ->
     found = mkDocument 1%nat
               (mkActivity "Chess Club"
                  "Learn strategies and compete in chess tournaments"
                  "Fridays, 3:30 PM - 5:00 PM" 12
                  ["michael@mergington.edu"; "daniel@mergington.edu"])).
Proof.
  pose proof (unregister_from_activity_status alone "Chess Club"
                "michael@mergington.edu" seeded) as H.
  cbv zeta in H. destruct H as [_ H].
  destruct (H _ eq_refl) as (_ & H').
  apply H'.
  - apply (bool_decide_unpack _). vm_compute. reflexivity.
  - vm_compute. discriminate.
Defined.

(** A second signup of a participant fails and leaves the collection. *)
Lemma failed_request_writes_nothing_witness :
  (status_code Student_already_signed_up = 404 \/
   status_code Student_already_signed_up = 400 \/
   status_code Student_already_signed_up = 500) /\
  (status_code Student_already_signed_up ≠ 500 -> seeded = seeded) /\
  (status_code Student_already_signed_up = 500 -> seeded = alone seeded) /\
  (alone seeded = seeded -> seeded = seeded).
Proof.
  apply (failed_request_writes_nothing alone "Chess Club"
           "michael@mergington.edu" seeded Student_already_signed_up seeded).
  left. vm_compute. reflexivity.
Defined.

(** Signing up for "Chess Club" and unregistering again. *)
Lemma signup_then_unregister_witness :
  exists m' c'' before afterwards,
    unregister_from_activity alone "Chess Club" "new@mergington.edu"
      (signup_for_activity alone "Chess Club" "new@mergington.edu" seeded).2
      = (Return m', c'') /\
    find_one "Chess Club" seeded = Some before /\
    find_one "Chess Club" c'' = Some afterwards /\
    participants (fields afterwards) = participants (fields before) /\
    c'' = seeded.
Proof.
  apply (signup_then_unregister "Chess Club" "new@mergington.edu" seeded
           (mkMessage ("Signed up " +:+ "new@mergington.edu" +:+ " for "
                         +:+ "Chess Club"))).
  vm_compute. reflexivity.
Defined.

(** The scenario of the signup for "Chess Club". *)
Lemma signup_for_activity_success_witness :
  (exists before afterwards,
      find_one "Chess Club" (alone seeded) = Some before /\
      find_one "Chess Club"
        (signup_for_activity alone "Chess Club" "new@mergington.edu" seeded).2
        = Some afterwards /\
      participants (fields afterwards)
        = participants (fields before) ++ ["new@mergington.edu"] /\
      length (participants (fields afterwards))
        = S (length (participants (fields before)))) /\
  contains ("Signed up new@mergington.edu for Chess Club") "Chess Club" /\
  contains ("Signed up new@mergington.edu for Chess Club")
    "new@mergington.edu".
Proof.
  apply (proj1 signup_for_activity_success alone "Chess Club"
           "new@mergington.edu" seeded
           (mkMessage "Signed up new@mergington.edu for Chess Club")).
  vm_compute. reflexivity.
Defined.

(** An email stored twice is gone after one unregister. *)
Lemma unregister_from_activity_removes_all_witness :
  exists before afterwards,
    find_one "Chess Club" (alone stored_twice) = Some before /\
    find_one "Chess Club"
      (unregister_from_activity alone "Chess Club" "michael@mergington.edu"
         stored_twice).2 = Some afterwards /\
    participants (fields afterwards)
      = filter (fun x => x ≠ "michael@mergington.edu")
          (participants (fields before)) /\
    ("michael@mergington.edu" ∉ participants (fields afterwards)) /\
    (forall x, x ≠ "michael@mergington.edu" ->
       x ∈ participants (fields afterwards)
       <-> x ∈ participants (fields before)).
Proof.
  apply (unregister_from_activity_removes_all alone "Chess Club"
           "michael@mergington.edu" stored_twice
           (mkMessage "Unregistered michael@mergington.edu from Chess Club")).
  vm_compute. reflexivity.
Defined.

(** The listing of the seeded collection maps the name of its first
    document to that document's record. *)
Lemma get_activities_mapping_witness :
  exists (activities : gmap string Activity) d,
    get_activities seeded = (Return activities, seeded) /\
    seeded !! 0%nat = Some d /\
    activities !! name (fields d) = Some (fields d).
Proof.
  destruct (get_activities_mapping seeded)
    as (activities & Hrun & _ & Hreach & _).
  eexists activities, _. split; [exact Hrun|]. split; [reflexivity|].
  apply Hreach.
  - exact (reachable_after SeedData [] reachable_empty).
  - apply list_elem_of_lookup_2 with 0%nat. reflexivity.
Defined.

(** Seeding a collection that holds a document. *)
Lemma seed_data_initial_activities_witness :
  seed_data full_house = (Return tt, full_house).
Proof.
  apply (proj2 seed_data_initial_activities full_house).
  vm_compute. discriminate.
Defined.

(** ** Further properties of the handlers *)

(** A request that runs alone, step by step: its update always goes through. *)
Lemma signup_alone_run n e c :
  signup_for_activity alone n e c =
  match find_one n c with
  | None => (Raise Activity_not_found, c)
  | Some d =>
      if bool_decide (e ∈ participants (fields d))
      then (Raise Student_already_signed_up, c)
      else if Z.geb (Z.of_nat (length (participants (fields d))))
                    (max_participants (fields d))
      then (Raise Max_participants_reached, c)
      else (Return (mkMessage ("Signed up " +:+ e +:+ " for " +:+ n)),
            (update_one n (Push e) c).2)
  end.
Proof.
  rewrite signup_for_activity_run. unfold alone.
  destruct (find_one n c) as [d|] eqn:Hf; [|reflexivity].
  case_bool_decide; [reflexivity|].
  destruct (Z.geb _ _); [reflexivity|].
  destruct (update_one_Some n (Push e) c d Hf) as [Hr _].
  destruct (update_one n (Push e) c) as [r c']. simpl in *. now subst r.
Qed.

Lemma unregister_alone_run n e c :
  unregister_from_activity alone n e c =
  match find_one n c with
  | None => (Raise Activity_not_found, c)
  | Some d =>
      if bool_decide (e ∉ participants (fields d))
      then (Raise Student_not_registered, c)
      else (Return (mkMessage ("Unregistered " +:+ e +:+ " from " +:+ n)),
            (update_one n (Pull e) c).2)
  end.
Proof.
  rewrite unregister_from_activity_run. unfold alone.
  destruct (find_one n c) as [d|] eqn:Hf; [|reflexivity].
  case_bool_decide as He; [reflexivity|].
  destruct (update_one_Some n (Pull e) c d Hf) as [Hr _].
  destruct (update_one n (Pull e) c) as [r c']. simpl in *. subst r.
  simpl. now rewrite bool_decide_true by (now apply dec_stable).
Qed.

(** What a returned signup, with or without other writers, went through. *)
Lemma signup_returned concurrent n e c m c' :
  signup_for_activity concurrent n e c = (Return m, c') ->
  exists d d',
    find_one n c = Some d /\
    (e ∉ participants (fields d)) /\
    Z.of_nat (length (participants (fields d))) < max_participants (fields d) /\
    find_one n (concurrent c) = Some d' /\
    c' = (update_one n (Push e) (concurrent c)).2 /\
    find_one n c' = Some (apply_update (Push e) d').
Proof.
  rewrite signup_for_activity_run.
  destruct (find_one n c) as [d|]; [|discriminate].
  case_bool_decide as He; [discriminate|].
  destruct (Z.geb _ _) eqn:Hg; [discriminate|].
  assert (Hlt : Z.of_nat (length (participants (fields d)))
                < max_participants (fields d)).
  { destruct (Z.geb_spec (Z.of_nat (length (participants (fields d))))
                (max_participants (fields d))); [discriminate | lia]. }
  destruct (find_one n (concurrent c)) as [d'|] eqn:Hf'.
  - destruct (update_one_Some _ (Push e) _ _ Hf') as [Hr Hs].
    destruct (update_one n (Push e) (concurrent c)) as [r c1].
    simpl in Hr, Hs. destruct (Z.eqb _ _); [discriminate|].
    intros [= <- <-]. now exists d, d'.
  - rewrite (update_one_None _ _ _ Hf'). discriminate.
Qed.

Lemma unregister_returned concurrent n e c m c' :
  unregister_from_activity concurrent n e c = (Return m, c') ->
  exists d d',
    find_one n c = Some d /\
    e ∈ participants (fields d) /\
    find_one n (concurrent c) = Some d' /\
    e ∈ participants (fields d') /\
    c' = (update_one n (Pull e) (concurrent c)).2 /\
    find_one n c' = Some (apply_update (Pull e) d').
Proof.
  rewrite unregister_from_activity_run.
  destruct (find_one n c) as [d|]; [|discriminate].
  case_bool_decide as He; [discriminate|].
  destruct (find_one n (concurrent c)) as [d'|] eqn:Hf'.
  - destruct (update_one_Some _ (Pull e) _ _ Hf') as [Hr Hs].
    destruct (update_one n (Pull e) (concurrent c)) as [r c1].
    simpl in Hr, Hs. subst r. simpl.
    case_bool_decide as He'; simpl; [|discriminate].
    intros [= <- <-]. now exists d, d'.
  - rewrite (update_one_None _ _ _ Hf'). discriminate.
Qed.

Lemma elem_of_snoc (e : string) (ps : list string) : e ∈ ps ++ [e].
Proof. apply elem_of_app. right. apply list_elem_of_singleton. reflexivity. Qed.

(** *** Repeated requests *)

(** X1: the same signup sent again after it succeeded is refused with
    400 "Student already signed up" and writes nothing, whatever the other
    requests do around either of the two. *)
Theorem signup_again_refused concurrent concurrent' n e c m c' :
  signup_for_activity concurrent n e c = (Return m, c') ->
  signup_for_activity concurrent' n e c'
    = (Raise (mkHTTPException 400 "Student already signed up"), c').
Proof.
  intros H. apply signup_returned in H as (d & d' & _ & _ & _ & _ & _ & Hs).
  rewrite signup_for_activity_run, Hs.
  rewrite bool_decide_true; [reflexivity|]. simpl. apply elem_of_snoc.
Qed.

Lemma signup_again_refused_witness :
  signup_for_activity alone "Chess Club" "new@mergington.edu"
    (signup_for_activity alone "Chess Club" "new@mergington.edu" seeded).2
  = (Raise (mkHTTPException 400 "Student already signed up"),
     (signup_for_activity alone "Chess Club" "new@mergington.edu" seeded).2).
Proof.
  apply (signup_again_refused alone alone "Chess Club" "new@mergington.edu"
           seeded
           (mkMessage "Signed up new@mergington.edu for Chess Club")).
  vm_compute. reflexivity.
Defined.

(** X2: the same unregister sent again after it succeeded is refused with
    400 "Student not registered" and writes nothing. *)
Theorem unregister_again_refused concurrent concurrent' n e c m c' :
  unregister_from_activity concurrent n e c = (Return m, c') ->
  unregister_from_activity concurrent' n e c'
    = (Raise (mkHTTPException 400 "Student not registered"), c').
Proof.
  intros H.
  apply unregister_returned in H as (d & d' & _ & _ & _ & _ & _ & Hs).
  rewrite unregister_from_activity_run, Hs.
  rewrite bool_decide_true; [reflexivity|]. simpl. apply pull_removes.
Qed.

Lemma unregister_again_refused_witness :
  unregister_from_activity alone "Chess Club" "michael@mergington.edu"
    (unregister_from_activity alone "Chess Club" "michael@mergington.edu"
       seeded).2
  = (Raise (mkHTTPException 400 "Student not registered"),
     (unregister_from_activity alone "Chess Club" "michael@mergington.edu"
        seeded).2).
Proof.
  apply (unregister_again_refused alone alone "Chess Club"
           "michael@mergington.edu" seeded
           (mkMessage "Unregistered michael@mergington.edu from Chess Club")).
  vm_compute. reflexivity.
Defined.

Lemma pull_shorter (e : string) (ps : list string) :
  e ∈ ps -> (length (filter (fun x => x ≠ e) ps) < length ps)%nat.
Proof.
  intros He. apply (length_filter_lt _ _ e); [assumption|].
  intros Hne. now apply Hne.
Qed.

Lemma pull_then_push_permutation (e : string) (ps : list string) :
  NoDup ps -> e ∈ ps -> filter (fun x => x ≠ e) ps ++ [e] ≡ₚ ps.
Proof.
  intros Hnd He. apply NoDup_Permutation; [|assumption|].
  - apply NoDup_app. repeat split.
    + now apply NoDup_filter.
    + intros x Hx Hx'. apply list_elem_of_singleton in Hx' as ->.
      now apply pull_removes in Hx.
    + apply NoDup_singleton.
  - intros x. rewrite elem_of_app, list_elem_of_filter, list_elem_of_singleton.
    split.
    + intros [[_ Hx]| ->]; assumption.
    + intros Hx. destruct (decide (x = e)) as [->|Hne]; [now right|now left].
Qed.

(** X3: unregistering a participant and signing the same email up again,
    alone and with the record within its capacity, succeeds both times; the
    email is then the last participant, the others keep their order, and
    without duplicate emails the participants are the same as before up to
    that order. *)
Theorem unregister_then_signup n e c d m c' :
  find_one n c = Some d ->
  Z.of_nat (length (participants (fields d))) <= max_participants (fields d) ->
  unregister_from_activity alone n e c = (Return m, c') ->
  exists m' c'' d'',
    signup_for_activity alone n e c' = (Return m', c'') /\
    find_one n c'' = Some d'' /\
    participants (fields d'')
      = filter (fun x => x ≠ e) (participants (fields d)) ++ [e] /\
    (NoDup (participants (fields d)) ->
     participants (fields d'') ≡ₚ participants (fields d)).
Proof.
  intros Hf Hle H.
  apply unregister_returned in H as (d0 & d1 & Hf0 & He & Hf1 & _ & -> & Hs).
  unfold alone in *. rewrite Hf in Hf0, Hf1.
  injection Hf0 as <-. injection Hf1 as <-.
  pose proof (pull_shorter e _ He) as Hsh.
  destruct (update_one_Some n (Push e) _ _ Hs) as [_ Hs'].
  eexists _, _, _. split; [|split; [exact Hs'|split; [reflexivity|]]].
  - rewrite signup_alone_run, Hs.
    rewrite bool_decide_false by (simpl; apply pull_removes).
    destruct (Z.geb_spec
                (Z.of_nat (length (participants
                                     (fields (apply_update (Pull e) d)))))
                (max_participants (fields (apply_update (Pull e) d))))
      as [Hge|_]; [|reflexivity].
    simpl in Hge. lia.
  - intros Hnd. simpl. now apply pull_then_push_permutation.
Qed.

Lemma unregister_then_signup_witness :
  exists m' c'' d'',
    signup_for_activity alone "Chess Club" "michael@mergington.edu"
      (unregister_from_activity alone "Chess Club" "michael@mergington.edu"
         seeded).2 = (Return m', c'') /\
    find_one "Chess Club" c'' = Some d'' /\
    participants (fields d'')
      = ["daniel@mergington.edu"] ++ ["michael@mergington.edu"] /\
    (NoDup ["michael@mergington.edu"; "daniel@mergington.edu"] ->
     participants (fields d'')
       ≡ₚ ["michael@mergington.edu"; "daniel@mergington.edu"]).
Proof.
  pose proof (unregister_then_signup "Chess Club" "michael@mergington.edu"
                seeded _
                (mkMessage "Unregistered michael@mergington.edu from Chess Club")
                (unregister_from_activity alone "Chess Club"
                   "michael@mergington.edu" seeded).2
                eq_refl) as H.
  refine (H _ _).
  - vm_compute. discriminate.
  - vm_compute. reflexivity.
Defined.

(** *** What a request leaves alone *)

Lemma static_apply_update u d : static (apply_update u d) = static d.
Proof. destruct u; reflexivity. Qed.

Lemma after_signup_cases n e c :
  after (Signup n e) c = c \/
  after (Signup n e) c = (update_one n (Push e) c).2.
Proof.
  unfold after. rewrite signup_alone_run.
  destruct (find_one n c); [|now left].
  case_bool_decide; [now left|].
  destruct (Z.geb _ _); [now left | now right].
Qed.

Lemma after_unregister_cases n e c :
  after (Unregister n e) c = c \/
  after (Unregister n e) c = (update_one n (Pull e) c).2.
Proof.
  unfold after. rewrite unregister_alone_run.
  destruct (find_one n c); [|now left].
  case_bool_decide; [now left | now right].
Qed.

(** X4: a signup or unregister request, run alone, neither adds nor removes
    a document, changes no key of any document but ["participants"], and
    changes no document at all but the one [find_one] returns for the
    name. *)
Theorem requests_touch_one_participants_list n e c c' :
  c' = after (Signup n e) c \/ c' = after (Unregister n e) c ->
  length c' = length c /\
  forall (i : nat) d,
    c !! i = Some d ->
    exists d',
      c' !! i = Some d' /\
      static d' = static d /\
      (find_one n c ≠ Some d -> d' = d).
Proof.
  assert (Hupd : forall u,
             length (update_one n u c).2 = length c /\
             forall (i : nat) d,
               c !! i = Some d ->
               exists d',
                 (update_one n u c).2 !! i = Some d' /\
                 static d' = static d /\
                 (find_one n c ≠ Some d -> d' = d)).
  { intros u. split; [apply update_one_length|].
    intros i d Hi.
    destruct (update_one_lookup n u c i d Hi) as [H|[Hf H]].
    - now exists d.
    - exists (apply_update u d).
      split; [exact H|]. split; [apply static_apply_update|].
      intros Hne. contradiction. }
  assert (Hid : length c = length c /\
                forall (i : nat) d,
                  c !! i = Some d ->
                  exists d',
                    c !! i = Some d' /\
                    static d' = static d /\
                    (find_one n c ≠ Some d -> d' = d)).
  { split; [reflexivity|]. intros i d Hi. now exists d. }
  intros [->| ->].
  - destruct (after_signup_cases n e c) as [-> | ->]; [exact Hid | apply Hupd].
  - destruct (after_unregister_cases n e c) as [-> | ->];
      [exact Hid | apply Hupd].
Qed.

Lemma requests_touch_one_participants_list_witness :
  length (after (Signup "Art Club" "new@mergington.edu") seeded)
    = length seeded /\
  exists d d',
    seeded !! 0%nat = Some d /\
    after (Signup "Art Club" "new@mergington.edu") seeded !! 0%nat = Some d' /\
    static d' = static d /\
    (find_one "Art Club" seeded ≠ Some d -> d' = d).
Proof.
  destruct (requests_touch_one_participants_list "Art Club"
              "new@mergington.edu" seeded
              (after (Signup "Art Club" "new@mergington.edu") seeded)
              (or_introl eq_refl)) as [Hlen Hall].
  split; [exact Hlen|].
  destruct (Hall 0%nat _ eq_refl) as (d' & H1 & H2 & H3).
  eexists _, d'. split; [reflexivity|]. repeat split; assumption.
Defined.

(** X5: seeding is idempotent: a second run of the startup hook finds
    documents and inserts nothing, whatever the collection was at first. *)
Theorem seed_data_idempotent c :
  seed_data (seed_data c).2 = (Return tt, (seed_data c).2).
Proof.
  rewrite (seed_data_run c). destruct c as [|d c].
  - cbn [snd]. rewrite seed_data_run. reflexivity.
  - cbn [snd]. now rewrite seed_data_run.
Qed.

(** *** Edges of the signup checks *)

(** X6: an activity whose [max_participants] is zero or negative accepts
    nobody: every signup for it answers 400 and writes nothing. *)
Theorem signup_without_capacity concurrent n e c d :
  find_one n c = Some d ->
  max_participants (fields d) <= 0 ->
  status (signup_for_activity concurrent n e c).1 = 400 /\
  (signup_for_activity concurrent n e c).2 = c.
Proof.
  intros Hf Hmax. rewrite signup_for_activity_run, Hf.
  case_bool_decide; [now split|].
  destruct (Z.geb_spec (Z.of_nat (length (participants (fields d))))
              (max_participants (fields d))) as [_|Hlt]; [now split|].
  lia.
Qed.

Lemma signup_without_capacity_witness :
  status (signup_for_activity alone "Closed" "new@mergington.edu"
            [mkDocument 1%nat (mkActivity "Closed" "" "" 0 [])]).1 = 400 /\
  (signup_for_activity alone "Closed" "new@mergington.edu"
     [mkDocument 1%nat (mkActivity "Closed" "" "" 0 [])]).2
  = [mkDocument 1%nat (mkActivity "Closed" "" "" 0 [])].
Proof.
  eapply (signup_without_capacity alone "Closed" "new@mergington.edu").
  - reflexivity.
  - vm_compute. discriminate.
Defined.

(** X7: a signup answers 500 exactly when it passed its three checks and
    no document of that name is left when its update is served. *)
Theorem signup_500_iff concurrent n e c :
  status (signup_for_activity concurrent n e c).1 = 500 <->
  (exists d,
      find_one n c = Some d /\
      (e ∉ participants (fields d)) /\
      Z.of_nat (length (participants (fields d)))
        < max_participants (fields d)) /\
  (forall d', d' ∈ concurrent c -> name (fields d') ≠ n).
Proof.
  rewrite signup_for_activity_answer, <- find_one_None.
  destruct (find_one n c) as [d|].
  - case_bool_decide as He.
    { split; [discriminate|]. intros [(d0 & [= <-] & Hn & _) _]. contradiction. }
    destruct (Z.geb_spec (Z.of_nat (length (participants (fields d))))
                (max_participants (fields d))) as [Hge|Hlt].
    { split; [discriminate|]. intros [(d0 & [= <-] & _ & Hlt) _]. lia. }
    destruct (find_one n (concurrent c)) as [d'|] eqn:Hf'.
    + destruct (update_one_Some n (Push e) _ _ Hf') as [-> _]. simpl.
      split; [discriminate|]. intros [_ [=]].
    + rewrite (update_one_None _ _ _ Hf'). simpl.
      split; [|reflexivity]. intros _. split; [|reflexivity]. now exists d.
  - split; [discriminate|]. intros [(d0 & [=] & _) _].
Qed.

(** X8: an unregister answers 500 exactly when the email was registered
    when the request read the activity, and the document its update is
    served on, if there is one left of that name, no longer holds it. *)
Theorem unregister_500_iff concurrent n e c :
  status (unregister_from_activity concurrent n e c).1 = 500 <->
  (exists d, find_one n c = Some d /\ e ∈ participants (fields d)) /\
  (forall d', find_one n (concurrent c) = Some d' ->
              e ∉ participants (fields d')).
Proof.
  rewrite unregister_from_activity_run.
  destruct (find_one n c) as [d|].
  - case_bool_decide as He.
    { split; [discriminate|]. intros [(d0 & [= <-] & Hn) _]. contradiction. }
    destruct (find_one n (concurrent c)) as [d'|] eqn:Hf'.
    + destruct (update_one_Some n (Pull e) _ _ Hf') as [Hr _].
      destruct (update_one n (Pull e) (concurrent c)) as [r c1].
      simpl in Hr. subst r. simpl. case_bool_decide as He'; simpl.
      * split; [discriminate|]. intros [_ H]. now destruct (H d' eq_refl).
      * split; [|reflexivity]. intros _. split; [now exists d|].
        now intros d0 [= <-].
    + rewrite (update_one_None _ _ _ Hf'). simpl.
      split; [|reflexivity]. intros _. split; [now exists d|]. discriminate.
  - split; [discriminate|]. intros [(d0 & [=] & _) _].
Qed.

(** *** Interleaved requests *)

(** X9: two signups for one activity whose reads both come before either
    write both succeed when each passes the checks on what it read: the
    second email is appended after the first.  So the same email sent twice
    is stored twice, and with one place left the activity ends up with more
    participants than [max_participants]. *)
Theorem interleaved_signups n e1 e2 c d :
  find_one n c = Some d ->
  e1 ∉ participants (fields d) ->
  e2 ∉ participants (fields d) ->
  Z.of_nat (length (participants (fields d))) < max_participants (fields d) ->
  exists m c' d',
    signup_for_activity (after (Signup n e2)) n e1 c = (Return m, c') /\
    find_one n c' = Some d' /\
    participants (fields d') = participants (fields d) ++ [e2; e1] /\
    max_participants (fields d') = max_participants (fields d) /\
    (e1 = e2 -> ~ NoDup (participants (fields d'))) /\
    (Z.of_nat (length (participants (fields d))) + 1
       = max_participants (fields d) ->
     Z.of_nat (length (participants (fields d')))
       > max_participants (fields d')).
Proof.
  intros Hf He1 He2 Hlt.
  assert (Hother : after (Signup n e2) c = (update_one n (Push e2) c).2).
  { unfold after. rewrite signup_alone_run, Hf.
    rewrite bool_decide_false by assumption.
    destruct (Z.geb_spec (Z.of_nat (length (participants (fields d))))
                (max_participants (fields d))); [lia | reflexivity]. }
  destruct (update_one_Some n (Push e2) c d Hf) as [_ Hf2].
  rewrite <- Hother in Hf2.
  destruct (update_one_Some n (Push e1) _ _ Hf2) as [Hr Hf1].
  eexists _, _, _. split; [|split; [exact Hf1|]].
  - rewrite signup_for_activity_run, Hf.
    rewrite bool_decide_false by assumption.
    destruct (Z.geb_spec (Z.of_nat (length (participants (fields d))))
                (max_participants (fields d))); [lia|].
    destruct (update_one n (Push e1) (after (Signup n e2) c)) as [r c1].
    simpl in Hr. subst r. reflexivity.
  - simpl. rewrite <- app_assoc. split; [reflexivity|].
    split; [reflexivity|]. split.
    + intros -> Hnd. apply NoDup_app in Hnd as (_ & _ & Hnd).
      apply NoDup_cons in Hnd as [Hnin _]. apply Hnin. left.
    + intros Hone. rewrite length_app. simpl. lia.
Qed.

Lemma interleaved_signups_witness :
  exists m c' d',
    signup_for_activity (after (Signup "Chess Club" "b@mergington.edu"))
      "Chess Club" "a@mergington.edu" one_place_left = (Return m, c') /\
    find_one "Chess Club" c' = Some d' /\
    participants (fields d')
      = ["michael@mergington.edu"; "daniel@mergington.edu"]
          ++ ["b@mergington.edu"; "a@mergington.edu"] /\
    max_participants (fields d') = 3 /\
    ("a@mergington.edu" = "b@mergington.edu" ->
     ~ NoDup (participants (fields d'))) /\
    (Z.of_nat 2 + 1 = 3 ->
     Z.of_nat (length (participants (fields d'))) > max_participants (fields d')).
Proof.
  refine (interleaved_signups "Chess Club" "a@mergington.edu"
            "b@mergington.edu" one_place_left _ eq_refl _ _ _).
  - apply (bool_decide_unpack _). vm_compute. reflexivity.
  - apply (bool_decide_unpack _). vm_compute. reflexivity.
  - vm_compute. reflexivity.
Defined.

(** X10: of two unregisters of one email whose reads both come before
    either write, the one whose update is served second answers
    500 "Failed to update activity"; the collection is then as the first one
    left it, without the email. *)
Theorem interleaved_unregisters n e c d :
  find_one n c = Some d ->
  e ∈ participants (fields d) ->
  unregister_from_activity (after (Unregister n e)) n e c
    = (Raise (mkHTTPException 500 "Failed to update activity"),
       after (Unregister n e) c) /\
  exists d',
    find_one n (after (Unregister n e) c) = Some d' /\
    e ∉ participants (fields d').
Proof.
  intros Hf He.
  assert (Hother : after (Unregister n e) c = (update_one n (Pull e) c).2).
  { unfold after. rewrite unregister_alone_run, Hf.
    now rewrite bool_decide_false by (intros Hn; now apply Hn). }
  destruct (update_one_Some n (Pull e) c d Hf) as [_ Hf1].
  rewrite <- Hother in Hf1.
  split.
  - rewrite unregister_from_activity_run, Hf.
    rewrite bool_decide_false by (intros Hn; now apply Hn).
    destruct (update_one_Some n (Pull e) _ _ Hf1) as [Hr _].
    pose proof (update_one_unmodified n (Pull e) (after (Unregister n e) c))
      as Hun.
    destruct (update_one n (Pull e) (after (Unregister n e) c)) as [r c1].
    simpl in Hr, Hun. subst r. simpl in *.
    rewrite bool_decide_false in * by apply pull_removes.
    simpl in *. now rewrite Hun.
  - eexists. split; [exact Hf1|]. simpl. apply pull_removes.
Qed.

Lemma interleaved_unregisters_witness :
  unregister_from_activity
    (after (Unregister "Chess Club" "michael@mergington.edu"))
    "Chess Club" "michael@mergington.edu" seeded
    = (Raise (mkHTTPException 500 "Failed to update activity"),
       after (Unregister "Chess Club" "michael@mergington.edu") seeded) /\
  exists d',
    find_one "Chess Club"
      (after (Unregister "Chess Club" "michael@mergington.edu") seeded)
      = Some d' /\
    "michael@mergington.edu" ∉ participants (fields d').
Proof.
  refine (interleaved_unregisters "Chess Club" "michael@mergington.edu"
            seeded _ eq_refl _).
  apply (bool_decide_unpack _). vm_compute. reflexivity.
Defined.

(** *** The listing after a request *)

Lemma listing_lookup c k :
  listing c !! k = fields <$> last (filter (fun d => name (fields d) = k) c).
Proof. apply get_activities_lookup. Qed.

(** An update under one name leaves the documents of every other name. *)
Lemma update_one_filter_ne n u c k :
  k ≠ n ->
  filter (fun d => name (fields d) = k) (update_one n u c).2
  = filter (fun d => name (fields d) = k) c.
Proof.
  intros Hk. induction c as [|x c IH]; [reflexivity|].
  cbn [update_one]. destruct (matches n x) eqn:Hx.
  - apply matches_true in Hx. cbn [snd].
    rewrite filter_cons_False
      by (cbv beta; rewrite name_apply_update; congruence).
    now rewrite filter_cons_False by (cbv beta; congruence).
  - destruct (update_one n u c) as [r c1]. cbn [snd] in *.
    rewrite !filter_cons, IH. reflexivity.
Qed.

Lemma last_filter_named c d n :
  NoDup (map (fun d => name (fields d)) c) ->
  d ∈ c ->
  name (fields d) = n ->
  last (filter (fun x => name (fields x) = n) c) = Some d.
Proof. intros Hnd Hd <-. now apply last_filter_unique. Qed.

Lemma listing_update_one n u c d :
  NoDup (map (fun d => name (fields d)) c) ->
  find_one n c = Some d ->
  listing (update_one n u c).2
  = <[n := fields (apply_update u d)]> (listing c).
Proof.
  intros Hnd Hf. apply map_eq. intros k.
  destruct (decide (k = n)) as [->|Hk].
  - rewrite lookup_insert_eq, listing_lookup.
    destruct (update_one_Some n u c d Hf) as [_ Hs].
    apply find_one_Some in Hs as [Hin Hn].
    rewrite (last_filter_named _ (apply_update u d) n);
      [reflexivity| |assumption..].
    now rewrite update_one_names.
  - rewrite lookup_insert_ne by congruence.
    now rewrite !listing_lookup, update_one_filter_ne.
Qed.

(** X11: with every name stored once, the listing shows what a request run
    alone has written: after a signup that returned it is the listing of
    before with the email appended to the participants under that name,
    after an unregister that returned it is the listing of before without
    the email there; all other entries and fields are as they were. *)
Theorem listing_after_request n e c :
  NoDup (map (fun d => name (fields d)) c) ->
  (forall m c',
      signup_for_activity alone n e c = (Return m, c') ->
      exists a,
        listing c !! n = Some a /\
        listing c'
        = <[n := mkActivity (name a) (description a) (schedule a)
                   (max_participants a) (participants a ++ [e])]>
            (listing c)) /\
  (forall m c',
      unregister_from_activity alone n e c = (Return m, c') ->
      exists a,
        listing c !! n = Some a /\
        listing c'
        = <[n := mkActivity (name a) (description a) (schedule a)
                   (max_participants a)
                   (filter (fun x => x ≠ e) (participants a))]>
            (listing c)).
Proof.
  intros Hnd.
  assert (Hread : forall d, find_one n c = Some d ->
                            listing c !! n = Some (fields d)).
  { intros d Hf. apply find_one_Some in Hf as [Hin Hn].
    now rewrite listing_lookup, (last_filter_named c d n). }
  split; intros m c' H.
  - apply signup_returned in H as (d & d' & Hf & _ & _ & Hf' & -> & _).
    unfold alone in *. rewrite Hf in Hf'. injection Hf' as <-.
    exists (fields d). split; [now apply Hread|].
    now rewrite (listing_update_one n (Push e) c d Hnd Hf).
  - apply unregister_returned in H as (d & d' & Hf & _ & Hf' & _ & -> & _).
    unfold alone in *. rewrite Hf in Hf'. injection Hf' as <-.
    exists (fields d). split; [now apply Hread|].
    now rewrite (listing_update_one n (Pull e) c d Hnd Hf).
Qed.

Lemma listing_after_request_witness :
  exists a,
    listing seeded !! "Chess Club" = Some a /\
    listing (after (Signup "Chess Club" "new@mergington.edu") seeded)
    = <["Chess Club" := mkActivity (name a) (description a) (schedule a)
                          (max_participants a)
                          (participants a ++ ["new@mergington.edu"])]>
        (listing seeded).
Proof.
  assert (Hnd : NoDup (map (fun d => name (fields d)) seeded)).
  { apply (bool_decide_unpack _). vm_compute. reflexivity. }
  apply (proj1 (listing_after_request "Chess Club" "new@mergington.edu"
                  seeded Hnd)
           (mkMessage "Signed up new@mergington.edu for Chess Club")).
  vm_compute. reflexivity.
Defined.

(** X12: a signup or unregister for one activity, run alone, changes the
    listing under no other name, also when names are stored more than
    once. *)
Theorem listing_other_names n e c k :
  k ≠ n ->
  listing (after (Signup n e) c) !! k = listing c !! k /\
  listing (after (Unregister n e) c) !! k = listing c !! k.
Proof.
  intros Hk. split.
  - destruct (after_signup_cases n e c) as [-> | ->]; [reflexivity|].
    now rewrite !listing_lookup, update_one_filter_ne.
  - destruct (after_unregister_cases n e c) as [-> | ->]; [reflexivity|].
    now rewrite !listing_lookup, update_one_filter_ne.
Qed.

Lemma listing_other_names_witness :
  listing (after (Signup "Chess Club" "new@mergington.edu") seeded)
    !! "Art Club" = listing seeded !! "Art Club" /\
  listing (after (Unregister "Chess Club" "new@mergington.edu") seeded)
    !! "Art Club" = listing seeded !! "Art Club".
Proof.
  apply (listing_other_names "Chess Club" "new@mergington.edu" seeded
           "Art Club").
  discriminate.
Defined.

Lemma listing_snoc c d :
  listing (c ++ [d]) = <[name (fields d) := fields d]> (listing c).
Proof.
  unfold listing. rewrite !get_activities_run. cbn [fst].
  now rewrite foldl_snoc.
Qed.

Lemma listing_lookup_None c k :
  (forall d, d ∈ c -> name (fields d) ≠ k) -> listing c !! k = None.
Proof.
  intros Hk. rewrite listing_lookup.
  destruct (last _) as [d|] eqn:Hl; [|reflexivity].
  apply last_filter_elem_of in Hl as [Hin Hn]. now destruct (Hk d Hin).
Qed.

(** X13: the listing never has more entries than the collection has
    documents, and it has exactly as many when every name is stored once:
    then no activity is hidden by another. *)
Theorem listing_size c :
  (size (listing c) <= length c)%nat /\
  (NoDup (map (fun d => name (fields d)) c) ->
   size (listing c) = length c).
Proof.
  induction c as [|x c [IHle IHeq]] using rev_ind; [now split|].
  rewrite listing_snoc, length_app, map_size_insert. simpl. split.
  - destruct (listing c !! name (fields x)); simpl; lia.
  - rewrite map_app. intros Hnd. apply NoDup_app in Hnd as (Hnd & Hx & _).
    rewrite listing_lookup_None, (IHeq Hnd); [simpl; lia|].
    intros d Hd Heq. apply (Hx (name (fields d))).
    + apply list_elem_of_In, in_map_iff. exists d.
      split; [reflexivity | now apply list_elem_of_In].
    + rewrite Heq. simpl. left.
Qed.

Lemma listing_size_witness :
  (size (listing seeded) <= length seeded)%nat /\
  size (listing seeded) = length seeded.
Proof.
  destruct (listing_size seeded) as [Hle Heq].
  split; [exact Hle|]. apply Heq.
  apply (bool_decide_unpack _). vm_compute. reflexivity.
Defined.

(** *** Every collection the service gets to *)

Lemma after_well_formed op c :
  Forall (fun d => well_formed (fields d)) c ->
  Forall (fun d => well_formed (fields d)) (after op c).
Proof.
  intros Hall. destruct c as [|d0 c0] eqn:Hc.
  - destruct op as [n e|n e| |].
    + unfold after. now rewrite signup_for_activity_run.
    + unfold after. now rewrite unregister_from_activity_run.
    + exact Hall.
    + exact seeded_well_formed.
  - rewrite <- Hc in *. assert (Hne : c ≠ []) by (now subst).
    apply Forall_lookup. intros i d' Hi'.
    destruct (c !! i) as [d|] eqn:Hi.
    + rewrite Forall_lookup in Hall.
      destruct (after_lookup_well_formed op c i d Hi (Hall i d Hi))
        as (d'' & H & Hwf).
      assert (d'' = d') as <- by congruence. exact Hwf.
    + apply lookup_ge_None in Hi. apply lookup_lt_Some in Hi'.
      rewrite (after_length op c Hne) in Hi'. lia.
Qed.

Lemma update_one_static n u c :
  map static (update_one n u c).2 = map static c.
Proof.
  induction c as [|x c IH]; [reflexivity|].
  cbn [update_one]. destruct (matches n x).
  - cbn [snd map]. now rewrite static_apply_update.
  - destruct (update_one n u c) as [r c1]. cbn [snd map] in *. now rewrite IH.
Qed.

Lemma after_static op c :
  c ≠ [] -> map static (after op c) = map static c.
Proof.
  intros Hc. destruct op as [n e|n e| |].
  - destruct (after_signup_cases n e c) as [-> | ->];
      [reflexivity | apply update_one_static].
  - destruct (after_unregister_cases n e c) as [-> | ->];
      [reflexivity | apply update_one_static].
  - reflexivity.
  - unfold after. rewrite seed_data_run. now destruct c.
Qed.

(** X14: whatever requests are served one after the other from an empty
    database, every activity has at most [max_participants] participants
    and no email twice. *)
Theorem reachable_well_formed c :
  reachable c ->
  forall d, d ∈ c ->
    NoDup (participants (fields d)) /\
    Z.of_nat (length (participants (fields d))) <= max_participants (fields d).
Proof.
  intros Hr.
  assert (Hall : Forall (fun d => well_formed (fields d)) c).
  { induction Hr as [|op c Hr IH]; [constructor | now apply after_well_formed]. }
  intros d Hd. rewrite Forall_forall in Hall. exact (Hall d Hd).
Qed.

Lemma reachable_well_formed_witness :
  exists d,
    after (Unregister "Art Club" "noah@mergington.edu")
      (after (Signup "Chess Club" "new@mergington.edu")
         (after SeedData [])) !! 0%nat = Some d /\
    NoDup (participants (fields d)) /\
    Z.of_nat (length (participants (fields d))) <= max_participants (fields d).
Proof.
  eexists. split; [reflexivity|].
  apply (reachable_well_formed
           (after (Unregister "Art Club" "noah@mergington.edu")
              (after (Signup "Chess Club" "new@mergington.edu")
                 (after SeedData [])))).
  - do 3 apply reachable_after. exact reachable_empty.
  - apply list_elem_of_lookup_2 with 0%nat. reflexivity.
Defined.

(** X15: no request creates, deletes or renames an activity: served one
    after the other from an empty database, the requests leave either no
    document at all or the nine seeded ones, in their order, each with its
    [_id], name, description, schedule and capacity. *)
Theorem reachable_activities_fixed c :
  reachable c ->
  c = [] \/ map static c = map static seeded.
Proof.
  induction 1 as [|op c Hr [-> |IH]]; [now left| |].
  - destruct op as [n e|n e| |]; [left; reflexivity..|right; reflexivity].
  - right. rewrite after_static; [exact IH|].
    intros ->. discriminate IH.
Qed.

Lemma reachable_activities_fixed_witness :
  after (Unregister "Art Club" "noah@mergington.edu")
    (after (Signup "Chess Club" "new@mergington.edu") (after SeedData []))
    = [] \/
  map static
    (after (Unregister "Art Club" "noah@mergington.edu")
       (after (Signup "Chess Club" "new@mergington.edu") (after SeedData [])))
  = map static seeded.
Proof.
  apply reachable_activities_fixed.
  do 3 apply reachable_after. exact reachable_empty.
Defined.

(** *** A name stored in more than one document *)

Lemma update_one_filter_eq n u c :
  filter (fun d => name (fields d) = n) (update_one n u c).2
  = match filter (fun d => name (fields d) = n) c with
    | [] => []
    | d :: rest => apply_update u d :: rest
    end.
Proof.
  induction c as [|x c IH]; [reflexivity|].
  cbn [update_one]. destruct (matches n x) eqn:Hx.
  - apply matches_true in Hx. cbn [snd].
    rewrite filter_cons_True
      by (cbv beta; rewrite name_apply_update; assumption).
    now rewrite (filter_cons_True _ x c) by assumption.
  - apply matches_false in Hx.
    destruct (update_one n u c) as [r c1]. cbn [snd] in *.
    rewrite (filter_cons_False _ x c1) by assumption.
    now rewrite (filter_cons_False _ x c) by assumption.
Qed.

Lemma listing_update_one_shadowed n u c :
  (1 < length (filter (fun d => name (fields d) = n) c))%nat ->
  listing (update_one n u c).2 = listing c.
Proof.
  intros Hlen. apply map_eq. intros k. rewrite !listing_lookup.
  destruct (decide (k = n)) as [->|Hk];
    [|now rewrite update_one_filter_ne].
  rewrite update_one_filter_eq.
  destruct (filter (fun d => name (fields d) = n) c) as [|d [|d2 rest]];
    simpl in Hlen; [lia..|].
  now rewrite !last_cons_cons.
Qed.

(** X16: when a name is stored in more than one document, a signup for it
    that runs alone and returns has written (to the first of them) and yet
    the listing is the same as before, since the listing shows the last of
    them. *)
Theorem signup_hidden_by_second_document n e c m c' :
  (1 < length (filter (fun d => name (fields d) = n) c))%nat ->
  signup_for_activity alone n e c = (Return m, c') ->
  c' ≠ c /\ listing c' = listing c.
Proof.
  intros Hlen H.
  apply signup_returned in H as (d & d' & Hf & _ & _ & Hf' & -> & Hs).
  unfold alone in *. rewrite Hf in Hf'. injection Hf' as <-. split.
  - intros Heq. rewrite Heq, Hf in Hs. injection Hs as Hs.
    apply (f_equal (fun d => length (participants (fields d)))) in Hs.
    simpl in Hs. rewrite length_app in Hs. simpl in Hs. lia.
  - now apply listing_update_one_shadowed.
Qed.

Lemma signup_hidden_by_second_document_witness :
  (signup_for_activity alone "Chess Club" "new@mergington.edu"
     seeded_twice).2 ≠ seeded_twice /\
  listing (signup_for_activity alone "Chess Club" "new@mergington.edu"
             seeded_twice).2 = listing seeded_twice.
Proof.
  apply (signup_hidden_by_second_document "Chess Club" "new@mergington.edu"
           seeded_twice
           (mkMessage "Signed up new@mergington.edu for Chess Club")).
  - vm_compute. lia.
  - vm_compute. reflexivity.
Defined.
